(** * Replix AI backend: a shallow embedding of [src/main.py]

  The service renders a Minecraft plugin project from a request
  (templates [_plugin_yml], [_main_java], [_command_java]), packs it with
  [build_plugin_zip], stores it ([generate_plugin]) and serves it back
  ([download_plugin], [history]).

  Python [str] values are modelled by [string]. The white-space class of
  [strip] and the case maps of [lower] and [capitalize] are modelled on
  ASCII text only; a statement that depends on them carries the
  hypothesis that the text they are applied to is ASCII ([Py.isascii]). *)

From Stdlib Require Import ZArith NArith Ascii String Strings.Byte List Lia Sorted.
From stdpp Require Import base gmap strings list fin_maps.

Local Open Scope Z_scope.
Set Warnings "-register-all".

(** ** Python string built-ins *)

Module Py.

(** [s.isascii()]: every character is below 128. *)
Fixpoint isascii (s : string) : bool :=
  match s with
  | EmptyString => true
  | String c s' => (N_of_ascii c <? 128)%N && isascii s'
  end.

(** [str.isspace] on one ASCII character: TAB, LF, VT, FF, CR, the four
    separators FS, GS, RS, US, and the blank. The white space outside
    ASCII (U+0085, U+00A0, ...) is not modelled. *)
Definition isspace (c : ascii) : bool :=
  let n := N_of_ascii c in
  (((9 <=? n) && (n <=? 13)) || ((28 <=? n) && (n <=? 32)))%N.

Fixpoint lstrip (s : string) : string :=
  match s with
  | EmptyString => EmptyString
  | String c s' => if isspace c then lstrip s' else s
  end.

Fixpoint rstrip (s : string) : string :=
  match s with
  | EmptyString => EmptyString
  | String c s' =>
      match rstrip s' with
      | EmptyString => if isspace c then EmptyString else String c EmptyString
      | r => String c r
      end
  end.

(** [s.strip()] *)
Definition strip (s : string) : string := rstrip (lstrip s).

(** [c in s] for a one-character [c] *)
Fixpoint contains (c : ascii) (s : string) : bool :=
  match s with
  | EmptyString => false
  | String d s' => Ascii.eqb c d || contains c s'
  end.

(** [s.replace(old, new)] for one-character [old] and [new] *)
Fixpoint replace (old new : ascii) (s : string) : string :=
  match s with
  | EmptyString => EmptyString
  | String d s' => String (if Ascii.eqb d old then new else d) (replace old new s')
  end.

(** The case maps of ASCII letters; the Unicode case maps of the other
    characters are not modelled. *)
Definition char_lower (c : ascii) : ascii :=
  let n := N_of_ascii c in
  if ((65 <=? n) && (n <=? 90))%N then ascii_of_N (n + 32) else c.

Definition char_upper (c : ascii) : ascii :=
  let n := N_of_ascii c in
  if ((97 <=? n) && (n <=? 122))%N then ascii_of_N (n - 32) else c.

(** [s.lower()] *)
Fixpoint lower (s : string) : string :=
  match s with
  | EmptyString => EmptyString
  | String c s' => String (char_lower c) (lower s')
  end.

(** [s.capitalize()]: the first character in upper case, every other
    character in lower case. *)
Definition capitalize (s : string) : string :=
  match s with
  | EmptyString => EmptyString
  | String c s' => String (char_upper c) (lower s')
  end.

(** [sep.join(parts)] *)
Fixpoint join (sep : string) (parts : list string) : string :=
  match parts with
  | [] => EmptyString
  | [x] => x
  | x :: rest => x +:+ sep +:+ join sep rest
  end.

(** Truth value of a [str]: non-empty. *)
Definition truthy (s : string) : bool :=
  match s with EmptyString => false | String _ _ => true end.

(** Truth value of an [Optional[str]]: neither [None] nor empty. *)
Definition truthy_opt (o : option string) : bool :=
  match o with Some s => truthy s | None => false end.

(** [o or default] for an [Optional[str]] *)
Definition or_else (o : option string) (default : string) : string :=
  match o with
  | Some s => if truthy s then s else default
  | None => default
  end.

End Py.

Definition nl : string := String "010" EmptyString.
Definition dq : string := String "034" EmptyString.

(** ** Request model (pydantic classes, lines 25-35) *)

Module CommandSpec.
Record t := mk {
  name : string;
  usage : option string;
  description : option string
}.
End CommandSpec.

Module GenerateRequest.
Record t := mk {
  plugin_name : string;
  package_name : string;
  description : string;
  api : string;
  commands : list CommandSpec.t
}.
End GenerateRequest.

(** ** Template renderer *)

(** Body of the [for cmd in commands] loop of [_plugin_yml] (lines 48-57):
    one pass appends the block of [cmd] to [lines], or nothing when the
    stripped name is empty ([continue]). *)
Definition plugin_yml_step (lines : list string) (cmd : CommandSpec.t) : list string :=
  let cname := Py.strip (CommandSpec.name cmd) in
  if negb (Py.truthy cname) then lines
  else
    let lines := lines ++ ["  " +:+ cname +:+ ":"] in
    let lines :=
      match CommandSpec.description cmd with
      | Some d => if Py.truthy d then lines ++ ["    description: " +:+ d] else lines
      | None => lines
      end in
    let lines := lines ++ ["    usage: /" +:+ cname] in
    let lines := lines ++ ["    permission: replix." +:+ cname] in
    lines ++ ["    permission-message: You don't have permission to use this command."].

Definition _plugin_yml (name main_class description : string)
    (commands : list CommandSpec.t) : string :=
  let lines :=
    [ "name: " +:+ name;
      "version: 1.0.0";
      "api-version: '1.20'";
      "main: " +:+ main_class;
      "description: " +:+ (if Py.truthy description then description else name) ] in
  let lines :=
    match commands with
    | [] => lines
    | _ :: _ => fold_left plugin_yml_step commands (lines ++ ["commands:"])
    end in
  Py.join nl lines +:+ nl.

Definition _main_java (package_name class_name description : string)
    (commands : list CommandSpec.t) : string :=
  let named := List.filter (fun c => Py.truthy (CommandSpec.name c)) commands in
  let register_cmds :=
    Py.join nl
      (map (fun c =>
              "        this.getCommand(" +:+ dq +:+ CommandSpec.name c +:+ dq
              +:+ ").setExecutor(new " +:+ Py.capitalize (CommandSpec.name c)
              +:+ "Command());") named) in
  let imports_cmds :=
    Py.join nl
      (map (fun c =>
              "import " +:+ package_name +:+ ".commands."
              +:+ Py.capitalize (CommandSpec.name c) +:+ "Command;") named) in
  Py.strip
    (nl +:+
     "package " +:+ package_name +:+ ";" +:+ nl +:+
     nl +:+
     "import org.bukkit.plugin.java.JavaPlugin;" +:+ nl +:+
     imports_cmds +:+ nl +:+
     nl +:+
     "public class " +:+ class_name +:+ " extends JavaPlugin {" +:+ nl +:+
     nl +:+
     "    @Override" +:+ nl +:+
     "    public void onEnable() {" +:+ nl +:+
     "        getLogger().info(" +:+ dq
       +:+ (if Py.truthy description then description else class_name)
       +:+ " enabled!" +:+ dq +:+ ");" +:+ nl +:+
     register_cmds +:+ nl +:+
     "    }" +:+ nl +:+
     nl +:+
     "    @Override" +:+ nl +:+
     "    public void onDisable() {" +:+ nl +:+
     "        getLogger().info(" +:+ dq +:+ class_name +:+ " disabled!" +:+ dq +:+ ");" +:+ nl +:+
     "    }" +:+ nl +:+
     "}" +:+ nl)
  +:+ nl.

Definition _command_java (package_name : string) (cmd : CommandSpec.t) : string :=
  let class_name := Py.capitalize (CommandSpec.name cmd) +:+ "Command" in
  let message :=
    Py.or_else (CommandSpec.description cmd)
               ("/" +:+ CommandSpec.name cmd +:+ " executed!") in
  Py.strip
    (nl +:+
     "package " +:+ package_name +:+ ".commands;" +:+ nl +:+
     nl +:+
     "import org.bukkit.command.Command;" +:+ nl +:+
     "import org.bukkit.command.CommandExecutor;" +:+ nl +:+
     "import org.bukkit.command.CommandSender;" +:+ nl +:+
     nl +:+
     "public class " +:+ class_name +:+ " implements CommandExecutor {" +:+ nl +:+
     nl +:+
     "    @Override" +:+ nl +:+
     "    public boolean onCommand(CommandSender sender, Command command, String label, String[] args) {" +:+ nl +:+
     "        sender.sendMessage(" +:+ dq +:+ message +:+ dq +:+ ");" +:+ nl +:+
     "        return true;" +:+ nl +:+
     "    }" +:+ nl +:+
     "}" +:+ nl)
  +:+ nl.

(** ** Values, documents and identifiers *)

Abbreviation bytes := (list byte).

(** BSON / JSON values as the handlers build and read them. *)
Inductive Value :=
| VNone
| VStr (s : string)
| VInt (z : Z)
| VBytes (b : bytes)
| VDate (t : Z)
| VOid (o : N)
| VList (l : list Value)
| VDict (l : list (string * Value)).

(** Python truth value of a value read from a document. *)
Definition value_truthy (v : Value) : bool :=
  match v with
  | VNone => false
  | VStr s => Py.truthy s
  | VInt z => negb (z =? 0)
  | VBytes b => match b with [] => false | _ => true end
  | VDate _ => true
  | VOid _ => true
  | VList l => match l with [] => false | _ => true end
  | VDict l => match l with [] => false | _ => true end
  end.

(** [bson.ObjectId]: twelve bytes, here the 96-bit number they spell; its
    text form is 24 lower-case hexadecimal digits. The class comes from the
    driver, not from this repository. [ObjectId(s)] takes a [str] of 24
    characters and reads it with [bytes.fromhex], which skips ASCII white
    space between the digit pairs: a text of 24 characters with white
    space in it is accepted too and gives fewer than twelve bytes. Such an
    identifier equals no twelve-byte one; it is kept apart from them as a
    number from [2 ^ 96] on. *)
Module ObjectId.

Definition t := N.

Definition hex_digit (d : N) : ascii :=
  if (d <? 10)%N then ascii_of_N (48 + d) else ascii_of_N (87 + d).

(** [k] digits of [n], most significant first, in front of [acc]. *)
Fixpoint hex (k : nat) (n : N) (acc : string) : string :=
  match k with
  | O => acc
  | S k' => hex k' (n / 16)%N (String (hex_digit (n mod 16)%N) acc)
  end.

(** [str(oid)] *)
Definition to_str (o : t) : string := hex 24 o EmptyString.

Definition hex_value (c : ascii) : option N :=
  let n := N_of_ascii c in
  if ((48 <=? n) && (n <=? 57))%N then Some (n - 48)%N
  else if ((97 <=? n) && (n <=? 102))%N then Some (n - 87)%N
  else if ((65 <=? n) && (n <=? 70))%N then Some (n - 55)%N
  else None.

Fixpoint parse_hex (acc : N) (s : string) : option N :=
  match s with
  | EmptyString => Some acc
  | String c s' =>
      match hex_value c with
      | Some d => parse_hex (acc * 16 + d)%N s'
      | None => None
      end
  end.

(** The white space [bytes.fromhex] skips: TAB, LF, VT, FF, CR, blank. *)
Definition fromhex_space (c : ascii) : bool :=
  let n := N_of_ascii c in
  (((9 <=? n) && (n <=? 13)) || (n =? 32))%N.

(** [bytes.fromhex(s)]: the number of bytes read after [count] and their
    value after [acc], most significant first; [None] stands for
    [ValueError]. White space may stand between two bytes, not inside
    one. *)
Fixpoint fromhex (s : string) (count : nat) (acc : N) : option (nat * N) :=
  match s with
  | EmptyString => Some (count, acc)
  | String c s' =>
      if fromhex_space c then fromhex s' count acc
      else
        match hex_value c, s' with
        | Some hi, String d s'' =>
            match hex_value d with
            | Some lo => fromhex s'' (S count) (acc * 256 + hi * 16 + lo)%N
            | None => None
            end
        | _, _ => None
        end
  end.

(** The identifier of [count] bytes spelling [value]. *)
Definition of_bytes (count : nat) (value : N) : t :=
  if Nat.eqb count 12 then value
  else (2 ^ 96 + 2 ^ (8 * N.of_nat count) + value)%N.

(** [ObjectId(s)]: [None] stands for the [InvalidId] exception. *)
Definition of_str (s : string) : option t :=
  if Nat.eqb (String.length s) 24 then
    match fromhex s 0 0%N with
    | Some (count, value) => Some (of_bytes count value)
    | None => None
    end
  else None.

End ObjectId.

(** ** Effects: exceptions, the storage handle and the event log *)

Inductive Exn :=
| HTTPException (status_code : Z) (detail : string)
| PythonError (name : string).

Inductive Result (A : Type) :=
| Ok (a : A)
| Raise (e : Exn).
Arguments Ok {A} a.
Arguments Raise {A} e.

(** The [generation] collection: documents in insertion order, each under
    its unique [_id]. *)
Abbreviation Collection := (list (ObjectId.t * gmap string Value)).

(** Calls on objects outside the handlers, in the order made. *)
Inductive Event :=
| ZipWritestr (arcname : string) (data : string)
| DbInsertOne (oid : ObjectId.t)
| DbFindOne (oid : ObjectId.t)
| DbFind.

(** [db] is the module-level handle imported from [database]: [None] when
    storage is not available. *)
Record World := mkWorld {
  db : option Collection;
  events : list Event
}.

Definition M (A : Type) : Type := World -> Result A * World.

Definition ret {A} (a : A) : M A := fun w => (Ok a, w).
Definition raise {A} (e : Exn) : M A := fun w => (Raise e, w).
Definition bind {A B} (m : M A) (k : A -> M B) : M B :=
  fun w =>
    match m w with
    | (Ok a, w') => k a w'
    | (Raise e, w') => (Raise e, w')
    end.

Notation "'let*' x ':=' c1 'in' c2" := (bind c1 (fun x => c2))
  (at level 10, x name, c1 at level 100, c2 at level 200).

Definition log (e : Event) : M unit :=
  fun w => (Ok tt, {| db := db w; events := events w ++ [e] |}).

(** [for x in xs: acc = body(acc, x)] *)
Fixpoint for_each {A S} (body : S -> A -> M S) (xs : list A) (acc : S) : M S :=
  match xs with
  | [] => ret acc
  | x :: xs' => let* acc' := body acc x in for_each body xs' acc'
  end.

(** [db is None] *)
Definition db_is_none : M bool :=
  fun w => (Ok (match db w with None => true | Some _ => false end), w).

(** *** The storage driver

    [db] and its collection methods belong to the imported [database]
    module and the MongoDB driver; [src/main.py] only calls them. They are
    modelled by the driver's documented behaviour. *)

(** The document as a query returns it: with its [_id]. *)
Definition stored (entry : ObjectId.t * gmap string Value) : gmap string Value :=
  <["_id" := VOid entry.1]> entry.2.

Definition has_id (oid : ObjectId.t) (entry : ObjectId.t * gmap string Value) : bool :=
  (entry.1 =? oid)%N.

(** [db["generation"].insert_one(doc)]; [new_id] is the identifier the
    driver generates for the document. A duplicate [_id] is refused. *)
Definition insert_one (new_id : ObjectId.t) (doc : gmap string Value) : M ObjectId.t :=
  fun w =>
    match db w with
    | None => (Raise (PythonError "TypeError"), w)
    | Some coll =>
        if existsb (has_id new_id) coll then
          (Raise (PythonError "DuplicateKeyError"),
           {| db := db w; events := events w ++ [DbInsertOne new_id] |})
        else
          (Ok new_id,
           {| db := Some (coll ++ [(new_id, doc)]);
              events := events w ++ [DbInsertOne new_id] |})
    end.

(** [db["generation"].find_one({"_id": oid})] *)
Definition find_one (oid : ObjectId.t) : M (option (gmap string Value)) :=
  fun w =>
    match db w with
    | None => (Raise (PythonError "TypeError"), w)
    | Some coll =>
        (Ok (stored <$> List.find (has_id oid) coll),
         {| db := db w; events := events w ++ [DbFindOne oid] |})
    end.

(** Sort key of a document on a date field; a document without a date
    there ranks below every date, as a missing field does. *)
Definition date_key (field : string) (doc : gmap string Value) : option Z :=
  match doc !! field with
  | Some (VDate t) => Some t
  | _ => None
  end.

(** [a < b] on sort keys *)
Definition key_ltb (a b : option Z) : bool :=
  match a, b with
  | _, None => false
  | None, Some _ => true
  | Some x, Some y => x <? y
  end.

(** Descending insertion; among equal keys the earlier document stays
    first. *)
Fixpoint insert_desc (field : string) (d : gmap string Value)
    (l : list (gmap string Value)) : list (gmap string Value) :=
  match l with
  | [] => [d]
  | x :: l' =>
      if key_ltb (date_key field d) (date_key field x)
      then x :: insert_desc field d l'
      else d :: l
  end.

(** [cursor.sort(field, -1)] *)
Fixpoint sort_desc (field : string) (l : list (gmap string Value))
    : list (gmap string Value) :=
  match l with
  | [] => []
  | d :: l' => insert_desc field d (sort_desc field l')
  end.

(** [cursor.limit(n)]: [0] means no limit; a negative [n] caps at [|n|]. *)
Definition cursor_limit (n : Z) (l : list (gmap string Value))
    : list (gmap string Value) :=
  if n =? 0 then l else firstn (Z.to_nat (Z.abs n)) l.

(** [db["generation"].find({}, {exclude: 0}).sort(field, -1).limit(n)],
    read to the end. *)
Definition find_sorted (exclude field : string) (n : Z) : M (list (gmap string Value)) :=
  fun w =>
    match db w with
    | None => (Raise (PythonError "TypeError"), w)
    | Some coll =>
        (Ok (delete exclude <$> cursor_limit n (sort_desc field (stored <$> coll))),
         {| db := db w; events := events w ++ [DbFind] |})
    end.

(** *** The archive writer *)

(** [z.writestr(arcname, data)]: appends one entry, also when [arcname] is
    already in the archive. *)
Definition writestr (z : list (string * string)) (arcname data : string)
    : M (list (string * string)) :=
  let* _ := log (ZipWritestr arcname data) in
  ret (z ++ [(arcname, data)]).

(** A stand-in for the archive encoding, to run the handlers on concrete
    requests: the signature [PK] followed by the raw names and contents. *)
Definition raw_archive (entries : list (string * string)) : bytes :=
  x50 :: x4b ::
  flat_map (fun e => list_byte_of_string e.1 ++ list_byte_of_string e.2) entries.

(** ** Responses *)

(** The JSON body of [/api/generate]. *)
Record GenerateResponse := mkGenerateResponse {
  id : string;
  archive_size : Z;
  download_url : string;
  message : string
}.

(** [StreamingResponse(BytesIO(data), media_type=..., headers={"Content-Disposition": ...})] *)
Record StreamingResponse := mkStreamingResponse {
  body : bytes;
  media_type : string;
  content_disposition : string
}.

(** ** Archive builder and request handlers *)

Section Service.

(** The bytes [ZipFile] leaves in the buffer for a sequence of entries
    (DEFLATE and the container layout are the standard library's). *)
Variable zip_encode : list (string * string) -> bytes.

(** Body of the [for cmd in req.commands] loop of [build_plugin_zip]
    (lines 131-135). *)
Definition zip_command_step (pkg commands_pkg_path : string)
    (z : list (string * string)) (cmd : CommandSpec.t) : M (list (string * string)) :=
  let cname := Py.strip (Py.or_else (Some (CommandSpec.name cmd)) EmptyString) in
  if negb (Py.truthy cname) then ret z
  else writestr z (commands_pkg_path +:+ Py.capitalize cname +:+ "Command.java")
                  (_command_java pkg cmd).

(** The [pom.xml] text (lines 138-180). *)
Definition pom_xml (pkg : string) (req : GenerateRequest.t) : string :=
  Py.strip
    (nl +:+
     "<project xmlns=" +:+ dq +:+ "http://maven.apache.org/POM/4.0.0" +:+ dq
       +:+ " xmlns:xsi=" +:+ dq +:+ "http://www.w3.org/2001/XMLSchema-instance" +:+ dq +:+ nl +:+
     "    xsi:schemaLocation=" +:+ dq
       +:+ "http://maven.apache.org/POM/4.0.0 http://maven.apache.org/xsd/maven-4.0.0.xsd"
       +:+ dq +:+ ">" +:+ nl +:+
     "  <modelVersion>4.0.0</modelVersion>" +:+ nl +:+
     "  <groupId>" +:+ pkg +:+ "</groupId>" +:+ nl +:+
     "  <artifactId>"
       +:+ Py.replace " " "-" (Py.lower (GenerateRequest.plugin_name req))
       +:+ "</artifactId>" +:+ nl +:+
     "  <version>1.0.0</version>" +:+ nl +:+
     "  <name>" +:+ GenerateRequest.plugin_name req +:+ "</name>" +:+ nl +:+
     "  <description>" +:+ GenerateRequest.description req +:+ "</description>" +:+ nl +:+
     "  <build>" +:+ nl +:+
     "    <sourceDirectory>src/main/java</sourceDirectory>" +:+ nl +:+
     "    <plugins>" +:+ nl +:+
     "      <plugin>" +:+ nl +:+
     "        <groupId>org.apache.maven.plugins</groupId>" +:+ nl +:+
     "        <artifactId>maven-compiler-plugin</artifactId>" +:+ nl +:+
     "        <version>3.11.0</version>" +:+ nl +:+
     "        <configuration>" +:+ nl +:+
     "          <source>17</source>" +:+ nl +:+
     "          <target>17</target>" +:+ nl +:+
     "        </configuration>" +:+ nl +:+
     "      </plugin>" +:+ nl +:+
     "    </plugins>" +:+ nl +:+
     "  </build>" +:+ nl +:+
     "  <dependencies>" +:+ nl +:+
     "    <dependency>" +:+ nl +:+
     "      <groupId>org.spigotmc</groupId>" +:+ nl +:+
     "      <artifactId>spigot-api</artifactId>" +:+ nl +:+
     "      <version>1.20.1-R0.1-SNAPSHOT</version>" +:+ nl +:+
     "      <scope>provided</scope>" +:+ nl +:+
     "    </dependency>" +:+ nl +:+
     "  </dependencies>" +:+ nl +:+
     "  <repositories>" +:+ nl +:+
     "    <repository>" +:+ nl +:+
     "      <id>spigot-repo</id>" +:+ nl +:+
     "      <url>https://hub.spigotmc.org/nexus/content/repositories/snapshots/</url>" +:+ nl +:+
     "    </repository>" +:+ nl +:+
     "    <repository>" +:+ nl +:+
     "      <id>sonatype</id>" +:+ nl +:+
     "      <url>https://oss.sonatype.org/content/groups/public/</url>" +:+ nl +:+
     "    </repository>" +:+ nl +:+
     "  </repositories>" +:+ nl +:+
     "</project>" +:+ nl)
  +:+ nl.

Definition build_plugin_zip (req : GenerateRequest.t) : M bytes :=
  let pkg := Py.strip (GenerateRequest.package_name req) in
  if negb (Py.truthy pkg) || negb (Py.contains "." pkg) then
    raise (HTTPException 400
             "package_name must be a valid Java package like com.example.plugin")
  else
    let main_class_name := "Main" in
    let full_main_class := pkg +:+ "." +:+ main_class_name in
    let z := [] in
    let* z := writestr z "plugin.yml"
                (_plugin_yml (GenerateRequest.plugin_name req) full_main_class
                   (GenerateRequest.description req) (GenerateRequest.commands req)) in
    let java_path := "src/main/java/" +:+ Py.replace "." "/" pkg +:+ "/" in
    let* z := writestr z (java_path +:+ main_class_name +:+ ".java")
                (_main_java pkg main_class_name (GenerateRequest.description req)
                   (GenerateRequest.commands req)) in
    let* z :=
      match GenerateRequest.commands req with
      | [] => ret z
      | _ :: _ =>
          let commands_pkg_path := java_path +:+ "commands/" in
          for_each (zip_command_step pkg commands_pkg_path)
                   (GenerateRequest.commands req) z
      end in
    let* z := writestr z "pom.xml" (pom_xml pkg req) in
    let* z := writestr z ".gitignore"
                (".idea" +:+ nl +:+ "*.iml" +:+ nl +:+ "*.class" +:+ nl +:+ "/target" +:+ nl) in
    ret (zip_encode z).

(** [c.model_dump()] *)
Definition model_dump (c : CommandSpec.t) : Value :=
  let opt o := match o with Some s => VStr s | None => VNone end in
  VDict [ ("name", VStr (CommandSpec.name c));
          ("usage", opt (CommandSpec.usage c));
          ("description", opt (CommandSpec.description c)) ].

(** The ["files"] entry of the stored document (lines 208-211). *)
Definition doc_files (req : GenerateRequest.t) : list string :=
  [ "plugin.yml";
    "src/main/java/" +:+ Py.replace "." "/" (GenerateRequest.package_name req)
      +:+ "/Main.java" ]
  ++ match GenerateRequest.commands req with
     | [] => []
     | _ :: _ =>
         map (fun c =>
                "src/main/java/" +:+ Py.replace "." "/" (GenerateRequest.package_name req)
                +:+ "/commands/" +:+ Py.capitalize (CommandSpec.name c) +:+ "Command.java")
             (List.filter (fun c => Py.truthy (CommandSpec.name c))
                          (GenerateRequest.commands req))
     end.

(** The document literal of [generate_plugin] (lines 202-216). *)
Definition generation_doc (req : GenerateRequest.t) (zip_bytes : bytes)
    (now1 now2 : Z) : gmap string Value :=
  list_to_map
    [ ("plugin_name", VStr (GenerateRequest.plugin_name req));
      ("package_name", VStr (GenerateRequest.package_name req));
      ("description", VStr (GenerateRequest.description req));
      ("api", VStr (GenerateRequest.api req));
      ("commands", VList (map model_dump (GenerateRequest.commands req)));
      ("files", VList (map VStr (doc_files req)));
      ("archive_size", VInt (Z.of_nat (length zip_bytes)));
      ("created_at", VDate now1);
      ("updated_at", VDate now2);
      ("zip", VBytes zip_bytes) ].

(** [POST /api/generate]. [now1] and [now2] are the two readings of the
    clock, [new_id] the identifier the driver picks for the new document. *)
Definition generate_plugin (req : GenerateRequest.t) (now1 now2 : Z)
    (new_id : ObjectId.t) : M GenerateResponse :=
  let* none := db_is_none in
  if none then raise (HTTPException 500 "Database not available")
  else
    let* zip_bytes := build_plugin_zip req in
    let size := Z.of_nat (length zip_bytes) in
    let doc := generation_doc req zip_bytes now1 now2 in
    let* inserted_id := insert_one new_id doc in
    let gen_id := ObjectId.to_str inserted_id in
    ret {| id := gen_id;
           archive_size := size;
           download_url := "/api/download/" +:+ gen_id;
           message := "Plugin generated successfully" |}.

(** [not doc or not doc.get("zip")] *)
Definition archive_missing (doc : option (gmap string Value)) : bool :=
  match doc with
  | None => true
  | Some d =>
      (size d =? 0)%nat
      || negb (match d !! "zip" with Some v => value_truthy v | None => false end)
  end.

(** [GET /api/download/{gen_id}] *)
Definition download_plugin (gen_id : string) : M StreamingResponse :=
  let* none := db_is_none in
  if none then raise (HTTPException 500 "Database not available")
  else
    match ObjectId.of_str gen_id with
    | None => raise (HTTPException 400 "Invalid id")
    | Some oid =>
        let* doc := find_one oid in
        if archive_missing doc then raise (HTTPException 404 "Archive not found")
        else
          match doc with
          | Some d =>
              match d !! "zip" with
              | Some (VBytes data) =>
                  match default (VStr "plugin") (d !! "plugin_name") with
                  | VStr plugin_name =>
                      let filename :=
                        Py.replace " " "-" (Py.lower plugin_name) +:+ ".zip" in
                      ret {| body := data;
                             media_type := "application/zip";
                             content_disposition :=
                               "attachment; filename=" +:+ filename |}
                  | _ => raise (PythonError "AttributeError")
                  end
              | _ => raise (PythonError "TypeError")
              end
          | None => raise (PythonError "TypeError")
          end
    end.

(** Body of the [for it in items] loop of [history] (lines 255-257):
    [it["id"] = str(it.pop("_id"))]. *)
Definition history_item (it : gmap string Value) : Result (gmap string Value) :=
  match it !! "_id" with
  | Some (VOid o) => Ok (<["id" := VStr (ObjectId.to_str o)]> (delete "_id" it))
  | _ => Raise (PythonError "KeyError")
  end.

Fixpoint history_items (items : list (gmap string Value))
    (result : list (gmap string Value)) : Result (list (gmap string Value)) :=
  match items with
  | [] => Ok result
  | it :: items' =>
      match history_item it with
      | Ok it' => history_items items' (result ++ [it'])
      | Raise e => Raise e
      end
  end.

(** [GET /api/history?limit=N]; the value is the ["items"] list. *)
Definition history (limit : Z) : M (list (gmap string Value)) :=
  let* none := db_is_none in
  if none then raise (HTTPException 500 "Database not available")
  else
    let* items := find_sorted "zip" "created_at" limit in
    fun w => (history_items items [], w).

End Service.

(** ** Reference renderings *)

(** The handler identifier as the specification words it: the command name
    with its first letter capitalized, the other letters as given. *)
Definition first_letter_capitalized (s : string) : string :=
  match s with
  | EmptyString => EmptyString
  | String c s' => String (Py.char_upper c) s'
  end.

(** The text of a handler file: a class [class_name] in the [commands]
    sub-package whose [onCommand] sends [message] and returns [true]. *)
Definition handler_source (package_name class_name message : string) : string :=
  "package " +:+ package_name +:+ ".commands;" +:+ nl +:+
  nl +:+
  "import org.bukkit.command.Command;" +:+ nl +:+
  "import org.bukkit.command.CommandExecutor;" +:+ nl +:+
  "import org.bukkit.command.CommandSender;" +:+ nl +:+
  nl +:+
  "public class " +:+ class_name +:+ " implements CommandExecutor {" +:+ nl +:+
  nl +:+
  "    @Override" +:+ nl +:+
  "    public boolean onCommand(CommandSender sender, Command command, String label, String[] args) {" +:+ nl +:+
  "        sender.sendMessage(" +:+ dq +:+ message +:+ dq +:+ ");" +:+ nl +:+
  "        return true;" +:+ nl +:+
  "    }" +:+ nl +:+
  "}" +:+ nl.

(** The manifest block of one command: nothing for a name that is empty
    once stripped; otherwise the key line, a description line when a
    non-empty description is given, the usage line, the permission and the
    permission-denied message. *)
Definition manifest_block (cmd : CommandSpec.t) : list string :=
  match Py.strip (CommandSpec.name cmd) with
  | EmptyString => []
  | String c s =>
      let cname := String c s in
      ["  " +:+ cname +:+ ":"]
      ++ match CommandSpec.description cmd with
         | Some (String e d) => ["    description: " +:+ String e d]
         | _ => []
         end
      ++ [ "    usage: /" +:+ cname;
           "    permission: replix." +:+ cname;
           "    permission-message: You don't have permission to use this command." ]
  end.

(** The package-name precondition as the specification words it: the name
    is empty or holds no ['.']. *)
Definition malformed_package (package_name : string) : bool :=
  negb (Py.truthy package_name) || negb (Py.contains "." package_name).

Definition validation_error : Exn :=
  HTTPException 400 "package_name must be a valid Java package like com.example.plugin".

(** A command that gets a handler file: its name is non-empty once
    stripped. *)
Definition well_named (cmd : CommandSpec.t) : bool :=
  Py.truthy (Py.strip (CommandSpec.name cmd)).

(** Source directory of the package inside the archive. *)
Definition java_dir (pkg : string) : string :=
  "src/main/java/" +:+ Py.replace "." "/" pkg +:+ "/".

Definition handler_path (pkg : string) (cmd : CommandSpec.t) : string :=
  (java_dir pkg +:+ "commands/")
  +:+ Py.capitalize (Py.strip (CommandSpec.name cmd)) +:+ "Command.java".

(** The entries of the archive of a request, in the order written. *)
Definition archive_entries (req : GenerateRequest.t) : list (string * string) :=
  let pkg := Py.strip (GenerateRequest.package_name req) in
  [ ("plugin.yml",
     _plugin_yml (GenerateRequest.plugin_name req) (pkg +:+ "." +:+ "Main")
       (GenerateRequest.description req) (GenerateRequest.commands req));
    (java_dir pkg +:+ "Main" +:+ ".java",
     _main_java pkg "Main" (GenerateRequest.description req)
       (GenerateRequest.commands req)) ]
  ++ map (fun cmd => (handler_path pkg cmd, _command_java pkg cmd))
         (List.filter well_named (GenerateRequest.commands req))
  ++ [ ("pom.xml", pom_xml pkg req);
       (".gitignore",
        ".idea" +:+ nl +:+ "*.iml" +:+ nl +:+ "*.class" +:+ nl +:+ "/target" +:+ nl) ].

(** The world after the archive writer was called once per entry. *)
Definition written (entries : list (string * string)) (w : World) : World :=
  {| db := db w;
     events := events w ++ map (fun e => ZipWritestr e.1 e.2) entries |}.

(** Names of the archive entries written, read off the event log. *)
Definition written_names (evs : list Event) : list string :=
  flat_map (fun e => match e with ZipWritestr a _ => [a] | _ => [] end) evs.

(** [a] is not older than [b]: the order of a newest-first listing. *)
Definition not_older (a b : option Z) : Prop := key_ltb a b = false.

(** ** Sample data *)

Definition hello : CommandSpec.t :=
  {| CommandSpec.name := "hello"; CommandSpec.usage := None;
     CommandSpec.description := None |}.

(** A command whose name is one blank. *)
Definition blank : CommandSpec.t :=
  {| CommandSpec.name := " "; CommandSpec.usage := None;
     CommandSpec.description := None |}.

Definition fooBar : CommandSpec.t :=
  {| CommandSpec.name := "fooBar"; CommandSpec.usage := None;
     CommandSpec.description := None |}.

Definition sample_request (commands : list CommandSpec.t) : GenerateRequest.t :=
  {| GenerateRequest.plugin_name := "My Plugin";
     GenerateRequest.package_name := "com.example";
     GenerateRequest.description := EmptyString;
     GenerateRequest.api := "spigot";
     GenerateRequest.commands := commands |}.

(** Storage available and empty, nothing logged. *)
Definition fresh_world : World := {| db := Some []; events := [] |}.

(** The world after one successful [generate_plugin] on [fresh_world]. *)
Definition one_record_world : World :=
  (generate_plugin raw_archive (sample_request [hello]) 0 0 1%N fresh_world).2.

(** ** More of the request model *)

(** The request with another package name. *)
Definition with_package (p : string) (req : GenerateRequest.t) : GenerateRequest.t :=
  {| GenerateRequest.plugin_name := GenerateRequest.plugin_name req;
     GenerateRequest.package_name := p;
     GenerateRequest.description := GenerateRequest.description req;
     GenerateRequest.api := GenerateRequest.api req;
     GenerateRequest.commands := GenerateRequest.commands req |}.

(** [name.lower().replace(' ', '-')]: the artifact id of [pom.xml]
    (line 143) and the stem of the download file name (line 243). *)
Definition slug (name : string) : string := Py.replace " " "-" (Py.lower name).

(** Every character of [s] passes [p]. *)
Fixpoint all_chars (p : ascii -> bool) (s : string) : bool :=
  match s with
  | EmptyString => true
  | String c s' => p c && all_chars p s'
  end.

Definition is_hex_digit (c : ascii) : bool :=
  match ObjectId.hex_value c with Some _ => true | None => false end.


Definition is_ascii_capital (c : ascii) : bool :=
  let n := N_of_ascii c in ((65 <=? n) && (n <=? 90))%N.

(** ** The scope of the statements *)

(** Every command name is ASCII. *)
Definition ascii_names (commands : list CommandSpec.t) : bool :=
  forallb (fun c => Py.isascii (CommandSpec.name c)) commands.

(** The text of the request that the code strips or maps to another case
    (package name, plugin name, command names) is ASCII. *)
Definition ascii_request (req : GenerateRequest.t) : bool :=
  Py.isascii (GenerateRequest.package_name req)
  && Py.isascii (GenerateRequest.plugin_name req)
  && ascii_names (GenerateRequest.commands req).

(** Every entry name is within the 65535 bytes the archive format allows
    for a name ([writestr] raises beyond that). *)
Definition names_fit (entries : list (string * string)) : bool :=
  forallb (fun e => (N.of_nat (String.length e.1) <=? 65535)%N) entries.

(** ** More sample commands *)

(** [fooBar] with a description that is given but empty. *)
Definition fooBar_empty : CommandSpec.t :=
  {| CommandSpec.name := "fooBar"; CommandSpec.usage := None;
     CommandSpec.description := Some EmptyString |}.

Definition greet : CommandSpec.t :=
  {| CommandSpec.name := "greet"; CommandSpec.usage := None;
     CommandSpec.description := Some "Says hello" |}.

(** ** Sample collections *)

(** A record with a creation time and a one-byte payload. *)
Definition dated (t : Z) : gmap string Value :=
  <["created_at" := VDate t]> {[ "zip" := VBytes [x50] ]}.

(** Three records, created at 10, 30 and 20. *)
Definition dated_collection : Collection :=
  [ (1%N, dated 10); (2%N, dated 30); (3%N, dated 20) ].

(** Two records created at the same time. *)
Definition tied_collection : Collection :=
  [ (1%N, dated 5); (2%N, dated 5) ].

(** No item is followed by one as new or newer: the order of a strictly
    descending listing. *)
Definition strictly_newer (a b : option Z) : Prop := key_ltb b a = true.

(** ** More reference renderings *)

Definition import_line (package_name : string) (c : CommandSpec.t) : string :=
  "import " +:+ package_name +:+ ".commands."
  +:+ Py.capitalize (CommandSpec.name c) +:+ "Command;".

Definition register_line (c : CommandSpec.t) : string :=
  "        this.getCommand(" +:+ dq +:+ CommandSpec.name c +:+ dq
  +:+ ").setExecutor(new " +:+ Py.capitalize (CommandSpec.name c)
  +:+ "Command());".

(** The text of the main entry: the import lines after the platform
    import, the registrations inside [onEnable] after the log line with
    [banner]. *)
Definition main_source (package_name class_name banner : string)
    (imports registrations : list string) : string :=
  "package " +:+ package_name +:+ ";" +:+ nl +:+
  nl +:+
  "import org.bukkit.plugin.java.JavaPlugin;" +:+ nl +:+
  Py.join nl imports +:+ nl +:+
  nl +:+
  "public class " +:+ class_name +:+ " extends JavaPlugin {" +:+ nl +:+
  nl +:+
  "    @Override" +:+ nl +:+
  "    public void onEnable() {" +:+ nl +:+
  "        getLogger().info(" +:+ dq +:+ banner +:+ " enabled!" +:+ dq +:+ ");" +:+ nl +:+
  Py.join nl registrations +:+ nl +:+
  "    }" +:+ nl +:+
  nl +:+
  "    @Override" +:+ nl +:+
  "    public void onDisable() {" +:+ nl +:+
  "        getLogger().info(" +:+ dq +:+ class_name +:+ " disabled!" +:+ dq +:+ ");" +:+ nl +:+
  "    }" +:+ nl +:+
  "}" +:+ nl.

(** ** Records of the collection *)

(** A record as [generate_plugin] stores it: a 96-bit identifier, a
    non-empty payload under [zip], its length under [archive_size], a date
    under [created_at] and a text under [plugin_name]. *)
Definition record_ok (entry : ObjectId.t * gmap string Value) : Prop :=
  (entry.1 < 2 ^ 96)%N
  /\ exists (b : bytes) (t : Z) (n : string),
       b <> []
       /\ entry.2 !! "zip" = Some (VBytes b)
       /\ entry.2 !! "archive_size" = Some (VInt (Z.of_nat (length b)))
       /\ entry.2 !! "created_at" = Some (VDate t)
       /\ entry.2 !! "plugin_name" = Some (VStr n).

(** The collection holds such records only, under pairwise distinct
    identifiers. *)
Definition store_ok (coll : Collection) : Prop :=
  NoDup (fst <$> coll) /\ Forall record_ok coll.

(** The text of the identifier of a document a query returned. *)
Definition doc_id (d : gmap string Value) : option Value :=
  match d !! "_id" with
  | Some (VOid o) => Some (VStr (ObjectId.to_str o))
  | _ => None
  end.

(** The item [history] makes of a document a query returned: [_id]
    replaced by its text under [id]. *)
Definition renamed (d : gmap string Value) : gmap string Value :=
  match d !! "_id" with
  | Some (VOid o) => <["id" := VStr (ObjectId.to_str o)]> (delete "_id" d)
  | _ => d
  end.

(** Three records: one with a payload but no plugin name, one with no
    payload, one with both. *)
Definition bare_collection : Collection :=
  [ (1%N, {[ "zip" := VBytes [x50; x4b] ]});
    (2%N, {[ "plugin_name" := VStr "Empty One" ]});
    (3%N, <["plugin_name" := VStr "My Plugin"]> {[ "zip" := VBytes [x50; x4b; x05] ]}) ].

(** ** The diagnostic endpoint *)

(** [try: body / except Exception as e: handler(e)] *)
Definition try_except {A} (body : M A) (handler : Exn -> M A) : M A :=
  fun w =>
    match body w with
    | (Ok a, w') => (Ok a, w')
    | (Raise e, w') => handler e w'
    end.

(** [s[:n]] *)
Fixpoint str_prefix (n : nat) (s : string) : string :=
  match n, s with
  | S n', String c s' => String c (str_prefix n' s')
  | _, _ => EmptyString
  end.

Section Diagnostics.

(** [db.name] when the handle has that attribute. *)
Variable db_name : option string.
(** [db.list_collection_names()], a call on the driver: it may raise. *)
Variable list_collection_names : M (list string).
(** [str(e)] *)
Variable exn_str : Exn -> string.
(** [os.getenv] *)
Variable getenv : string -> option string.

(** [GET /test] (lines 261-290). The messages carry their marks as the
    bytes of the source text. Inside the outer [try] only the listing can
    raise, and the inner [except] takes that. *)
Definition test_database : M (gmap string Value) :=
  let response : gmap string Value :=
    list_to_map
      [ ("backend", VStr "✅ Running");
        ("database", VStr "❌ Not Available");
        ("database_url", VNone);
        ("database_name", VNone);
        ("connection_status", VStr "Not Connected");
        ("collections", VList []) ] in
  let* response :=
    try_except
      (let* none := db_is_none in
       if negb none then
         let response := <["database" := VStr "✅ Available"]> response in
         let response := <["database_url" := VStr "✅ Configured"]> response in
         let response :=
           <["database_name" :=
               VStr (match db_name with
                     | Some n => n
                     | None => "✅ Connected"
                     end)]> response in
         let response := <["connection_status" := VStr "Connected"]> response in
         try_except
           (let* collections := list_collection_names in
            let response :=
              <["collections" := VList (map VStr (firstn 10 collections))]> response in
            ret (<["database" := VStr "✅ Connected & Working"]> response))
           (fun e =>
              ret (<["database" :=
                       VStr ("⚠️  Connected but Error: "
                             +:+ str_prefix 50 (exn_str e))]> response))
       else
         ret (<["database" := VStr "⚠️  Available but not initialized"]> response))
      (fun e =>
         ret (<["database" :=
                  VStr ("❌ Error: " +:+ str_prefix 50 (exn_str e))]> response)) in
  let response :=
    <["database_url" :=
        VStr (if Py.truthy_opt (getenv "DATABASE_URL")
              then "✅ Set" else "❌ Not Set")]> response in
  let response :=
    <["database_name" :=
        VStr (if Py.truthy_opt (getenv "DATABASE_NAME")
              then "✅ Set" else "❌ Not Set")]> response in
  ret response.

End Diagnostics.

(** * Properties *)

(** ** Strings *)

Lemma append_cons c s t : String c s +:+ t = String c (s +:+ t).
Proof. reflexivity. Qed.

Lemma append_nil_l t : EmptyString +:+ t = t.
Proof. reflexivity. Qed.

Lemma append_assoc s t u : (s +:+ t) +:+ u = s +:+ (t +:+ u).
Proof.
  induction s as [|c s IH]; [ reflexivity | ].
  rewrite !append_cons. now rewrite IH.
Qed.

Lemma truthy_append_r s t : Py.truthy t = true -> Py.truthy (s +:+ t) = true.
Proof. destruct s; [ rewrite append_nil_l | rewrite append_cons ]; auto. Qed.

Lemma lstrip_solid c s : Py.isspace c = false -> Py.lstrip (String c s) = String c s.
Proof. intros H. simpl. now rewrite H. Qed.

Lemma rstrip_append s t :
  Py.truthy (Py.rstrip t) = true -> Py.rstrip (s +:+ t) = s +:+ Py.rstrip t.
Proof.
  intros Ht. induction s as [|c s IH].
  - now rewrite !append_nil_l.
  - rewrite !append_cons. simpl. rewrite IH.
    pose proof (truthy_append_r s _ Ht) as Hs.
    destruct (s +:+ Py.rstrip t); [ discriminate | reflexivity ].
Qed.

Lemma rstrip_truthy_append s t :
  Py.truthy (Py.rstrip t) = true -> Py.truthy (Py.rstrip (s +:+ t)) = true.
Proof. intros Ht. rewrite rstrip_append by exact Ht. now apply truthy_append_r. Qed.

(** A character that is not white space survives both strips. *)
Lemma contains_lstrip c s :
  Py.isspace c = false -> Py.contains c (Py.lstrip s) = Py.contains c s.
Proof.
  intros Hc. induction s as [|d s IH]; [ reflexivity | ].
  simpl. destruct (Py.isspace d) eqn:Hd; [ | reflexivity ].
  rewrite IH. destruct (Ascii.eqb c d) eqn:E; [ | reflexivity ].
  apply Ascii.eqb_eq in E. congruence.
Qed.

Lemma contains_rstrip c s :
  Py.isspace c = false -> Py.contains c (Py.rstrip s) = Py.contains c s.
Proof.
  intros Hc. induction s as [|d s IH]; [ reflexivity | ].
  simpl. rewrite <- IH.
  destruct (Py.rstrip s) eqn:R; [ | reflexivity ].
  destruct (Py.isspace d) eqn:Hd; simpl.
  - destruct (Ascii.eqb c d) eqn:E; [ | reflexivity ].
    apply Ascii.eqb_eq in E. congruence.
  - reflexivity.
Qed.

Lemma contains_strip c s :
  Py.isspace c = false -> Py.contains c (Py.strip s) = Py.contains c s.
Proof.
  intros Hc. unfold Py.strip. now rewrite contains_rstrip, contains_lstrip.
Qed.

Lemma contains_truthy c s : Py.contains c s = true -> Py.truthy s = true.
Proof. destruct s; [ discriminate | reflexivity ]. Qed.

(** The text between the triple quotes of a template starts with a line
    break and ends with one; [strip] removes exactly these two when the
    text next to them is not white space. *)
Ltac rstrip_solid :=
  first [ reflexivity | apply rstrip_truthy_append; rstrip_solid ].

Ltac strip_template :=
  unfold Py.strip;
  change (nl +:+ ?x) with (String "010" x) at 1;
  cbn [Py.lstrip]; change (Py.isspace "010") with true; cbv iota;
  match goal with
  | |- context [Py.lstrip (String ?c ?s +:+ ?t)] =>
      rewrite (append_cons c s t);
      rewrite (lstrip_solid c (s +:+ t)) by reflexivity;
      rewrite <- (append_cons c s t)
  end;
  repeat (rewrite rstrip_append by rstrip_solid);
  match goal with
  | |- context [Py.rstrip ?t] =>
      let t' := eval vm_compute in (Py.rstrip t) in
      change (Py.rstrip t) with t'
  end;
  rewrite ?append_assoc.

(** ** Template renderer *)

(** C5. For every command with an ASCII name, [_command_java] renders a
    handler file whose class identifier is the command name with its first
    character in upper case and every other character in lower case,
    followed by [Command]; the handler sends back the command's
    description when one is given and non-empty, otherwise the default
    text [/<name> executed!], and returns [true]. *)
Theorem command_java_renders (package_name : string) (cmd : CommandSpec.t) :
  Py.isascii (CommandSpec.name cmd) = true ->
  _command_java package_name cmd =
  handler_source package_name
    (Py.capitalize (CommandSpec.name cmd) +:+ "Command")
    (match CommandSpec.description cmd with
     | Some (String c d) => String c d
     | _ => "/" +:+ CommandSpec.name cmd +:+ " executed!"
     end).
Proof.
  intros _. unfold _command_java, handler_source.
  replace (Py.or_else _ _)
    with (match CommandSpec.description cmd with
          | Some (String c d) => String c d
          | _ => "/" +:+ CommandSpec.name cmd +:+ " executed!"
          end)
    by (unfold Py.or_else; destruct (CommandSpec.description cmd) as [[|c d]|]; reflexivity).
  strip_template. reflexivity.
Qed.

Lemma command_java_renders_greet :
  _command_java "com.example" greet
  = handler_source "com.example" "GreetCommand" "Says hello".
Proof. apply (command_java_renders "com.example" greet). reflexivity. Defined.

(** At the command [fooBar] with the empty description, the rendered
    file declares [FoobarCommand] and sends the default text. It is not
    the file of the class named with only the first letter changed, and
    not a file that sends the (empty) description, whichever of the two
    is combined with the code's other choice. *)
Lemma command_java_fooBar_empty_description :
  _command_java "com.example" fooBar_empty
  = handler_source "com.example" "FoobarCommand" "/fooBar executed!"
  /\ _command_java "com.example" fooBar_empty
     <> handler_source "com.example"
          (first_letter_capitalized (CommandSpec.name fooBar_empty) +:+ "Command")
          EmptyString
  /\ _command_java "com.example" fooBar_empty
     <> handler_source "com.example"
          (first_letter_capitalized (CommandSpec.name fooBar_empty) +:+ "Command")
          "/fooBar executed!"
  /\ _command_java "com.example" fooBar_empty
     <> handler_source "com.example" "FoobarCommand" EmptyString.
Proof.
  split; [ reflexivity | ].
  repeat split; apply String.eqb_neq; vm_compute; reflexivity.
Qed.

Lemma plugin_yml_step_block lines cmd :
  plugin_yml_step lines cmd = lines ++ manifest_block cmd.
Proof.
  unfold plugin_yml_step, manifest_block.
  destruct (Py.strip (CommandSpec.name cmd)) as [|c s]; simpl.
  - now rewrite app_nil_r.
  - destruct (CommandSpec.description cmd) as [[|e d]|]; simpl;
      rewrite <- ?app_assoc; reflexivity.
Qed.

Lemma plugin_yml_loop cmds : forall lines,
  fold_left plugin_yml_step cmds lines = lines ++ flat_map manifest_block cmds.
Proof.
  induction cmds as [|cmd cmds IH]; intros lines; simpl.
  - now rewrite app_nil_r.
  - rewrite IH, plugin_yml_step_block. now rewrite <- app_assoc.
Qed.

(** C9. For commands with ASCII names, the manifest carries the
    description when it is non-empty and the plugin name otherwise; when
    [commands] is non-empty it continues with [commands:] and, for each
    command whose stripped name is non-empty, the block of
    [manifest_block]: a description line only for a given description, the
    usage [/<name>], the permission [replix.<name>] and the fixed
    permission-denied message. *)
Theorem plugin_yml_renders (name main_class description : string)
    (commands : list CommandSpec.t) :
  ascii_names commands = true ->
  _plugin_yml name main_class description commands =
  Py.join nl
    ([ "name: " +:+ name;
       "version: 1.0.0";
       "api-version: '1.20'";
       "main: " +:+ main_class;
       "description: " +:+ match description with
                           | EmptyString => name
                           | String _ _ => description
                           end ]
     ++ match commands with
        | [] => []
        | _ :: _ => "commands:" :: flat_map manifest_block commands
        end)
  +:+ nl.
Proof.
  intros _. unfold _plugin_yml. f_equal. f_equal.
  destruct commands as [|cmd cmds].
  - destruct description; reflexivity.
  - rewrite plugin_yml_loop. destruct description; simpl; reflexivity.
Qed.

Lemma plugin_yml_renders_greet_blank :
  _plugin_yml "P" "com.example.Main" "A plugin" [greet; blank] =
  Py.join nl
    [ "name: P";
      "version: 1.0.0";
      "api-version: '1.20'";
      "main: com.example.Main";
      "description: A plugin";
      "commands:";
      "  greet:";
      "    description: Says hello";
      "    usage: /greet";
      "    permission: replix.greet";
      "    permission-message: You don't have permission to use this command." ]
  +:+ nl.
Proof.
  apply (plugin_yml_renders "P" "com.example.Main" "A plugin" [greet; blank]).
  reflexivity.
Defined.

Example plugin_yml_hello_blank :
  _plugin_yml "P" "com.example.Main" EmptyString [hello; blank] =
  "name: P" +:+ nl +:+ "version: 1.0.0" +:+ nl +:+ "api-version: '1.20'" +:+ nl +:+
  "main: com.example.Main" +:+ nl +:+ "description: P" +:+ nl +:+ "commands:" +:+ nl +:+
  "  hello:" +:+ nl +:+ "    usage: /hello" +:+ nl +:+ "    permission: replix.hello" +:+ nl +:+
  "    permission-message: You don't have permission to use this command." +:+ nl.
Proof. reflexivity. Qed.

(** ** Archive builder *)

Lemma package_check (p : string) :
  negb (Py.truthy (Py.strip p)) || negb (Py.contains "." (Py.strip p))
  = malformed_package p.
Proof.
  unfold malformed_package.
  rewrite (contains_strip "." p) by reflexivity.
  destruct (Py.contains "." p) eqn:Hdot; simpl.
  - assert (Hs : Py.contains "." (Py.strip p) = true)
      by (rewrite contains_strip; [ exact Hdot | reflexivity ]).
    rewrite (contains_truthy _ _ Hs), (contains_truthy _ _ Hdot). reflexivity.
  - now rewrite !orb_true_r.
Qed.

Lemma written_nil w : written [] w = w.
Proof. destruct w; unfold written; simpl. now rewrite app_nil_r. Qed.

Lemma written_app es1 es2 w : written es2 (written es1 w) = written (es1 ++ es2) w.
Proof. unfold written; simpl. now rewrite map_app, app_assoc. Qed.

Lemma writestr_run z a d w :
  writestr z a d w = (Ok (z ++ [(a, d)]), written [(a, d)] w).
Proof. reflexivity. Qed.

(** The handler loop writes one entry per well-named command, in input
    order, and nothing for the others. *)
Lemma zip_commands_loop pkg cmds : forall z w,
  for_each (zip_command_step pkg (java_dir pkg +:+ "commands/")) cmds z w
  = (let es := map (fun cmd => (handler_path pkg cmd, _command_java pkg cmd))
                   (List.filter well_named cmds) in
     (Ok (z ++ es), written es w)).
Proof.
  induction cmds as [|cmd cmds IH]; intros z w; cbn [for_each List.filter map].
  - unfold ret. cbv zeta. now rewrite app_nil_r, written_nil.
  - unfold bind, zip_command_step at 1.
    assert (Hn : Py.or_else (Some (CommandSpec.name cmd)) EmptyString = CommandSpec.name cmd)
      by (simpl; destruct (CommandSpec.name cmd); reflexivity).
    rewrite Hn.
    change (Py.truthy (Py.strip (CommandSpec.name cmd))) with (well_named cmd).
    destruct (well_named cmd) eqn:Ht; cbn [negb map].
    + rewrite writestr_run, IH. cbv zeta.
      rewrite written_app, <- app_assoc. reflexivity.
    + unfold ret. apply IH.
Qed.

Lemma build_plugin_zip_rejects zip_encode req w :
  malformed_package (GenerateRequest.package_name req) = true ->
  build_plugin_zip zip_encode req w = (Raise validation_error, w).
Proof.
  intros H. unfold build_plugin_zip. rewrite package_check, H. reflexivity.
Qed.

Lemma build_plugin_zip_accepts zip_encode req w :
  malformed_package (GenerateRequest.package_name req) = false ->
  build_plugin_zip zip_encode req w
  = (Ok (zip_encode (archive_entries req)), written (archive_entries req) w).
Proof.
  intros H. unfold build_plugin_zip. rewrite package_check, H.
  unfold bind. cbv beta iota zeta. rewrite !writestr_run.
  fold (java_dir (Py.strip (GenerateRequest.package_name req))).
  unfold archive_entries.
  destruct (GenerateRequest.commands req) as [|cmd cmds] eqn:Hc.
  - unfold ret. rewrite !writestr_run. cbn [List.filter map].
    rewrite !written_app. reflexivity.
  - rewrite zip_commands_loop. cbv beta iota zeta. rewrite !writestr_run.
    unfold ret. rewrite !written_app, <- !app_assoc. reflexivity.
Qed.

(** A command whose stripped name is empty adds nothing to the manifest and
    nothing to the archive. *)
Lemma unnamed_command_skipped cmd :
  well_named cmd = false ->
  manifest_block cmd = []
  /\ forall pkg path z w, zip_command_step pkg path z cmd w = (Ok z, w).
Proof.
  unfold well_named. intros H. split.
  - unfold manifest_block. destruct (Py.strip (CommandSpec.name cmd)); [ reflexivity | discriminate ].
  - intros pkg path z w. unfold zip_command_step.
    replace (Py.or_else (Some (CommandSpec.name cmd)) EmptyString)
      with (CommandSpec.name cmd)
      by (simpl; destruct (CommandSpec.name cmd); reflexivity).
    now rewrite H.
Qed.

(** C4. For a request with a valid package name, ASCII text and entry
    names the archive format can hold, [build_plugin_zip] makes exactly
    these calls on the archive, in this order: the manifest, the main
    entry, one handler per command whose stripped name is non-empty (in
    input order), the build descriptor and the ignore file; with [N] such
    commands that is [2 + N] generated entries and [2] fixed ones, and the
    bytes returned are the encoding of these entries. *)
Theorem build_plugin_zip_entries zip_encode (req : GenerateRequest.t) (w : World) :
  ascii_request req = true ->
  names_fit (archive_entries req) = true ->
  malformed_package (GenerateRequest.package_name req) = false ->
  let pkg := Py.strip (GenerateRequest.package_name req) in
  let named := List.filter well_named (GenerateRequest.commands req) in
  exists entries,
    build_plugin_zip zip_encode req w = (Ok (zip_encode entries), written entries w)
    /\ map fst entries
       = [ "plugin.yml"; java_dir pkg +:+ "Main.java" ]
         ++ map (handler_path pkg) named
         ++ [ "pom.xml"; ".gitignore" ]
    /\ length entries = (2 + length named + 2)%nat
    /\ written_names (events (written entries w))
       = written_names (events w) ++ map fst entries.
Proof.
  intros _ _ Hok pkg named. exists (archive_entries req).
  split; [ now apply build_plugin_zip_accepts | ].
  split; [ | split ].
  - unfold archive_entries. cbn [map fst app].
    rewrite map_app, map_map. reflexivity.
  - unfold archive_entries. cbn [length app].
    rewrite length_app, length_map. cbn [length]. fold named. lia.
  - unfold written, written_names. cbn [events].
    rewrite flat_map_app. f_equal.
    induction (archive_entries req) as [|e es IH]; [ reflexivity | ].
    cbn [map flat_map fst app]. now rewrite IH.
Qed.

Lemma build_plugin_zip_entries_hello_blank :
  written_names
    (events (build_plugin_zip raw_archive (sample_request [hello; blank]) fresh_world).2)
  = [ "plugin.yml";
      "src/main/java/com/example/Main.java";
      "src/main/java/com/example/commands/HelloCommand.java";
      "pom.xml";
      ".gitignore" ].
Proof.
  destruct (build_plugin_zip_entries raw_archive (sample_request [hello; blank])
              fresh_world eq_refl eq_refl eq_refl)
    as (entries & Hrun & Hnames & _ & Hlog).
  rewrite Hrun. cbn [snd]. rewrite Hlog, Hnames. reflexivity.
Defined.

(** C3. [build_plugin_zip] raises the 400 validation error exactly when the
    package name is empty or holds no ['.'], and then nothing was written
    to the archive; with storage available [generate_plugin] raises it for
    the same requests and leaves the collection and the log as they were. *)
Theorem package_name_validation zip_encode (req : GenerateRequest.t)
    (now1 now2 : Z) (new_id : ObjectId.t) (w : World)
    (coll : Collection) (evs : list Event) :
  let bad := malformed_package (GenerateRequest.package_name req) in
  match build_plugin_zip zip_encode req w with
  | (Raise e, w') => bad = true /\ e = validation_error /\ w' = w
  | (Ok _, _) => bad = false
  end
  /\ match generate_plugin zip_encode req now1 now2 new_id
             {| db := Some coll; events := evs |} with
     | (Raise (HTTPException status_code detail), w') =>
         bad = true /\ HTTPException status_code detail = validation_error
         /\ w' = {| db := Some coll; events := evs |}
     | _ => bad = false
     end
  /\ malformed_package "com.example" = false
  /\ malformed_package EmptyString = true
  /\ malformed_package "noseparator" = true.
Proof.
  intros bad. repeat split.
  - destruct bad eqn:Hbad; unfold bad in Hbad.
    + now rewrite build_plugin_zip_rejects.
    + now rewrite build_plugin_zip_accepts.
  - unfold generate_plugin, bind, db_is_none. cbn [db].
    destruct bad eqn:Hbad; unfold bad in Hbad.
    + now rewrite build_plugin_zip_rejects.
    + rewrite build_plugin_zip_accepts by exact Hbad.
      unfold insert_one, written. cbn [db].
      destruct (existsb (has_id new_id) coll); reflexivity.
Qed.

(** ** Where the white-space handling of the three paths differs *)

(** C1, at the request with the single command named [" "]. The manifest
    gets no block and the archive no handler file, but [_main_java] tests
    the name without stripping it: the main entry imports and registers a
    handler for the blank name. *)
Theorem main_java_keeps_blank_name :
  manifest_block blank = []
  /\ written_names
       (events (build_plugin_zip raw_archive (sample_request [blank]) fresh_world).2)
     = [ "plugin.yml"; "src/main/java/com/example/Main.java"; "pom.xml"; ".gitignore" ]
  /\ _main_java "com.example" "Main" EmptyString [blank]
     = "package com.example;" +:+ nl +:+
       nl +:+
       "import org.bukkit.plugin.java.JavaPlugin;" +:+ nl +:+
       "import com.example.commands. Command;" +:+ nl +:+
       nl +:+
       "public class Main extends JavaPlugin {" +:+ nl +:+
       nl +:+
       "    @Override" +:+ nl +:+
       "    public void onEnable() {" +:+ nl +:+
       "        getLogger().info(" +:+ dq +:+ "Main enabled!" +:+ dq +:+ ");" +:+ nl +:+
       "        this.getCommand(" +:+ dq +:+ " " +:+ dq +:+ ").setExecutor(new  Command());" +:+ nl +:+
       "    }" +:+ nl +:+
       nl +:+
       "    @Override" +:+ nl +:+
       "    public void onDisable() {" +:+ nl +:+
       "        getLogger().info(" +:+ dq +:+ "Main disabled!" +:+ dq +:+ ");" +:+ nl +:+
       "    }" +:+ nl +:+
       "}" +:+ nl.
Proof. repeat split; vm_compute; reflexivity. Qed.

(** C2, at the same request on an empty store. The archive holds the
    manifest and the main entry (then the two fixed files); the [files]
    list of the stored document names a third path, a handler that was
    never written. *)
Theorem files_list_names_unwritten_handler :
  match generate_plugin raw_archive (sample_request [blank]) 0 0 1%N fresh_world with
  | (Ok _, {| db := Some [(_, doc)]; events := evs |}) =>
      written_names evs
      = [ "plugin.yml"; "src/main/java/com/example/Main.java"; "pom.xml"; ".gitignore" ]
      /\ doc !! "files"
         = Some (VList [ VStr "plugin.yml";
                         VStr "src/main/java/com/example/Main.java";
                         VStr "src/main/java/com/example/commands/ Command.java" ])
  | _ => False
  end.
Proof. vm_compute. split; reflexivity. Qed.

(** When neither the package name nor a command name has white space at
    its ends, the [files] list is the list of generated archive entries. *)
Lemma files_match_when_trimmed (req : GenerateRequest.t) :
  Py.strip (GenerateRequest.package_name req) = GenerateRequest.package_name req ->
  Forall (fun c => Py.strip (CommandSpec.name c) = CommandSpec.name c)
         (GenerateRequest.commands req) ->
  doc_files req ++ [ "pom.xml"; ".gitignore" ] = map fst (archive_entries req).
Proof.
  intros Hpkg Hcmds. unfold doc_files, archive_entries. rewrite Hpkg.
  assert (Hmap :
    map (fun c => "src/main/java/" +:+ Py.replace "." "/" (GenerateRequest.package_name req)
                  +:+ "/commands/" +:+ Py.capitalize (CommandSpec.name c) +:+ "Command.java")
        (List.filter (fun c => Py.truthy (CommandSpec.name c)) (GenerateRequest.commands req))
    = map (handler_path (GenerateRequest.package_name req))
          (List.filter well_named (GenerateRequest.commands req))).
  { induction Hcmds as [|c cs Hc _ IH]; [ reflexivity | ].
    cbn [List.filter]. unfold well_named at 1. rewrite Hc.
    destruct (Py.truthy (CommandSpec.name c)); [ | exact IH ].
    cbn [map]. rewrite IH. f_equal.
    unfold handler_path, java_dir. rewrite Hc. now rewrite !append_assoc. }
  cbn [map fst app]. f_equal. f_equal.
  - unfold java_dir. now rewrite !append_assoc.
  - rewrite map_app, map_map. cbn [map fst]. f_equal.
    destruct (GenerateRequest.commands req) as [|c cs] eqn:Hc;
      [ reflexivity | exact Hmap ].
Qed.

(** ** Identifiers *)

Lemma hex_value_digit (d : N) :
  (d < 16)%N -> ObjectId.hex_value (ObjectId.hex_digit d) = Some d.
Proof.
  intros H.
  assert (Hd : (d = 0 \/ d = 1 \/ d = 2 \/ d = 3 \/ d = 4 \/ d = 5 \/ d = 6 \/ d = 7
                \/ d = 8 \/ d = 9 \/ d = 10 \/ d = 11 \/ d = 12 \/ d = 13 \/ d = 14
                \/ d = 15)%N) by lia.
  repeat (destruct Hd as [Hd|Hd]; [ subst d; reflexivity | ]).
  subst d; reflexivity.
Qed.

Lemma hex_length k : forall n acc,
  String.length (ObjectId.hex k n acc) = (k + String.length acc)%nat.
Proof.
  induction k as [|k IH]; intros n acc; simpl; [ reflexivity | ].
  rewrite IH. simpl. lia.
Qed.

Lemma parse_hex_hex k : forall n a rest,
  ObjectId.parse_hex a (ObjectId.hex k n rest)
  = ObjectId.parse_hex (a * 16 ^ N.of_nat k + n mod 16 ^ N.of_nat k)%N rest.
Proof.
  induction k as [|k IH]; intros n a rest.
  - simpl. rewrite N.mod_1_r. f_equal. lia.
  - cbn [ObjectId.hex]. rewrite IH. cbn [ObjectId.parse_hex].
    rewrite hex_value_digit by (apply N.mod_lt; lia).
    f_equal.
    rewrite Nat2N.inj_succ, N.pow_succ_r'.
    rewrite (N.Div0.mod_mul_r n 16 (16 ^ N.of_nat k)). lia.
Qed.

Lemma hex_value_not_space c d :
  ObjectId.hex_value c = Some d -> ObjectId.fromhex_space c = false.
Proof.
  destruct c as [[] [] [] [] [] [] [] []]; intros H; first [ reflexivity | discriminate H ].
Qed.

(** On an even number of digits and no white space, [bytes.fromhex] reads
    the number the digits spell. *)
Lemma fromhex_digits n : forall s count acc,
  String.length s = (2 * n)%nat ->
  all_chars is_hex_digit s = true ->
  ObjectId.fromhex s count acc
  = option_map (fun v => ((count + n)%nat, v)) (ObjectId.parse_hex acc s).
Proof.
  induction n as [|n IH]; intros s count acc Hlen Hhex.
  - destruct s; [ | discriminate Hlen ]. cbn. now rewrite Nat.add_0_r.
  - destruct s as [|x [|y s]]; try (cbn in Hlen; lia).
    cbn [all_chars] in Hhex.
    apply andb_prop in Hhex as [Hx Hhex]. apply andb_prop in Hhex as [Hy Hhex].
    unfold is_hex_digit in Hx, Hy.
    destruct (ObjectId.hex_value x) as [hi|] eqn:Ex; [ | discriminate Hx ].
    destruct (ObjectId.hex_value y) as [lo|] eqn:Ey; [ | discriminate Hy ].
    cbn [ObjectId.fromhex ObjectId.parse_hex].
    rewrite (hex_value_not_space _ _ Ex), Ex, Ey.
    rewrite IH by (cbn in Hlen; first [ lia | exact Hhex ]).
    replace (acc * 256 + hi * 16 + lo)%N with ((acc * 16 + hi) * 16 + lo)%N by lia.
    replace (S count + n)%nat with (count + S n)%nat by lia.
    reflexivity.
Qed.

Lemma hex_all_digits k : forall n acc,
  all_chars is_hex_digit acc = true ->
  all_chars is_hex_digit (ObjectId.hex k n acc) = true.
Proof.
  induction k as [|k IH]; intros n acc Hacc; cbn [ObjectId.hex]; [ exact Hacc | ].
  apply IH. cbn [all_chars]. rewrite Hacc, andb_true_r.
  unfold is_hex_digit. now rewrite hex_value_digit by (apply N.mod_lt; lia).
Qed.

(** Reading back the text of an identifier gives the identifier. *)
Lemma of_str_to_str (o : ObjectId.t) :
  (o < 2 ^ 96)%N -> ObjectId.of_str (ObjectId.to_str o) = Some o.
Proof.
  intros H. unfold ObjectId.of_str, ObjectId.to_str.
  rewrite hex_length. cbn [String.length Nat.add Nat.eqb].
  rewrite (fromhex_digits 12) by
    first [ now rewrite hex_length | now apply hex_all_digits ].
  rewrite parse_hex_hex. cbn [ObjectId.parse_hex option_map]. f_equal.
  change (16 ^ N.of_nat 24)%N with (2 ^ 96)%N.
  rewrite N.mod_small by exact H.
  unfold ObjectId.of_bytes. cbn [Nat.add Nat.eqb]. lia.
Qed.



(** ** Request handlers *)

Lemma generate_unavailable zip_encode req now1 now2 new_id evs :
  generate_plugin zip_encode req now1 now2 new_id {| db := None; events := evs |}
  = (Raise (HTTPException 500 "Database not available"),
     {| db := None; events := evs |}).
Proof. reflexivity. Qed.

(** C10. Without storage [generate_plugin] answers the 500
    storage-unavailable error for every request, so also for one whose
    package name is malformed: the package name is not looked at, nothing
    is written, and the answer is not the validation error. *)
Theorem generate_checks_storage_first zip_encode (req : GenerateRequest.t)
    (now1 now2 : Z) (new_id : ObjectId.t) (evs : list Event) :
  generate_plugin zip_encode req now1 now2 new_id {| db := None; events := evs |}
  = (Raise (HTTPException 500 "Database not available"),
     {| db := None; events := evs |})
  /\ HTTPException 500 "Database not available" <> validation_error.
Proof. split; [ apply generate_unavailable | discriminate ]. Qed.

Example generate_noseparator_without_storage :
  let req := {| GenerateRequest.plugin_name := "P";
                GenerateRequest.package_name := "noseparator";
                GenerateRequest.description := EmptyString;
                GenerateRequest.api := "spigot";
                GenerateRequest.commands := [] |} in
  (build_plugin_zip raw_archive req fresh_world).1 = Raise validation_error
  /\ (generate_plugin raw_archive req 0 0 1%N {| db := None; events := [] |}).1
     = Raise (HTTPException 500 "Database not available").
Proof. split; reflexivity. Qed.


Lemma find_appended {A} (f : A -> bool) (l : list A) (x : A) :
  existsb f l = false -> f x = true -> List.find f (l ++ [x]) = Some x.
Proof.
  induction l as [|y l IH]; simpl; intros Hl Hx.
  - now rewrite Hx.
  - destruct (f y); [ discriminate | now apply IH ].
Qed.




Lemma generation_doc_zip req zip_bytes now1 now2 :
  generation_doc req zip_bytes now1 now2 !! "zip" = Some (VBytes zip_bytes).
Proof. reflexivity. Qed.

Lemma generation_doc_plugin_name req zip_bytes now1 now2 :
  generation_doc req zip_bytes now1 now2 !! "plugin_name"
  = Some (VStr (GenerateRequest.plugin_name req)).
Proof. reflexivity. Qed.

Lemma generation_doc_created_at req zip_bytes now1 now2 :
  generation_doc req zip_bytes now1 now2 !! "created_at" = Some (VDate now1).
Proof. reflexivity. Qed.

Lemma stored_nonempty entry : (size (stored entry) =? 0)%nat = false.
Proof.
  apply Nat.eqb_neq. apply map_size_non_empty_iff. apply insert_non_empty.
Qed.

(** What a successful [generate_plugin] did. *)
Lemma generate_ok_inv zip_encode req now1 now2 new_id w resp w' :
  generate_plugin zip_encode req now1 now2 new_id w = (Ok resp, w') ->
  exists coll,
    db w = Some coll
    /\ malformed_package (GenerateRequest.package_name req) = false
    /\ existsb (has_id new_id) coll = false
    /\ resp = {| id := ObjectId.to_str new_id;
                 archive_size := Z.of_nat (length (zip_encode (archive_entries req)));
                 download_url := "/api/download/" +:+ ObjectId.to_str new_id;
                 message := "Plugin generated successfully" |}
    /\ w' = {| db := Some (coll ++ [(new_id,
                                     generation_doc req (zip_encode (archive_entries req))
                                       now1 now2)]);
               events := events (written (archive_entries req) w)
                         ++ [DbInsertOne new_id] |}.
Proof.
  unfold generate_plugin, bind, db_is_none.
  destruct (db w) as [coll|] eqn:Hdb; [ | discriminate ].
  destruct (malformed_package (GenerateRequest.package_name req)) eqn:Hbad.
  - rewrite build_plugin_zip_rejects by exact Hbad. discriminate.
  - rewrite build_plugin_zip_accepts by exact Hbad.
    unfold insert_one. cbn [db written]. rewrite Hdb.
    destruct (existsb (has_id new_id) coll) eqn:Hdup; [ discriminate | ].
    unfold ret. intros H. injection H as <- <-.
    exists coll. repeat split; first [ assumption | reflexivity ].
Qed.

(** C6. After a successful [generate_plugin] on a request of ASCII text,
    [download_plugin] on the returned [id] answers the bytes
    [build_plugin_zip] produced for the request, as an attachment named
    after the plugin name in lower case with blanks replaced by hyphens,
    followed by [.zip]. *)
Theorem download_after_generate zip_encode (req : GenerateRequest.t)
    (now1 now2 : Z) (new_id : ObjectId.t) (w w' : World)
    (resp : GenerateResponse) :
  ascii_request req = true ->
  (forall entries, zip_encode entries <> []) ->
  (new_id < 2 ^ 96)%N ->
  generate_plugin zip_encode req now1 now2 new_id w = (Ok resp, w') ->
  exists zip_bytes,
    (build_plugin_zip zip_encode req w).1 = Ok zip_bytes
    /\ archive_size resp = Z.of_nat (length zip_bytes)
    /\ (download_plugin (id resp) w').1
       = Ok {| body := zip_bytes;
               media_type := "application/zip";
               content_disposition :=
                 "attachment; filename="
                 +:+ Py.replace " " "-" (Py.lower (GenerateRequest.plugin_name req))
                 +:+ ".zip" |}.
Proof.
  intros _ Hnonempty Hid Hgen.
  destruct (generate_ok_inv _ _ _ _ _ _ _ _ Hgen)
    as (coll & Hdb & Hok & Hfresh & -> & ->).
  exists (zip_encode (archive_entries req)).
  split; [ now rewrite build_plugin_zip_accepts | ].
  split; [ reflexivity | ].
  unfold download_plugin, bind, db_is_none. cbn [db id].
  rewrite of_str_to_str by exact Hid.
  unfold find_one. cbn [db events].
  rewrite (find_appended (has_id new_id) coll _ Hfresh)
    by (unfold has_id; cbn [fst]; apply N.eqb_refl).
  cbn [fmap option_fmap option_map archive_missing].
  rewrite stored_nonempty. unfold stored. cbn [fst snd].
  rewrite !lookup_insert_ne by discriminate.
  rewrite generation_doc_zip, generation_doc_plugin_name.
  cbn [value_truthy default].
  destruct (zip_encode (archive_entries req)) as [|b bs] eqn:Hz;
    [ now apply Hnonempty in Hz | ].
  reflexivity.
Qed.

Lemma download_after_generate_my_plugin :
  let w' := (generate_plugin raw_archive (sample_request [hello]) 0 0 1%N fresh_world).2 in
  exists zip_bytes,
    (build_plugin_zip raw_archive (sample_request [hello]) fresh_world).1 = Ok zip_bytes
    /\ Z.of_nat (length (raw_archive (archive_entries (sample_request [hello]))))
       = Z.of_nat (length zip_bytes)
    /\ (download_plugin "000000000000000000000001" w').1
       = Ok {| body := zip_bytes;
               media_type := "application/zip";
               content_disposition := "attachment; filename=my-plugin.zip" |}.
Proof.
  intros w'.
  apply (download_after_generate raw_archive (sample_request [hello]) 0 0 1%N
           fresh_world w'
           {| id := "000000000000000000000001";
              archive_size :=
                Z.of_nat (length (raw_archive (archive_entries (sample_request [hello]))));
              download_url := "/api/download/000000000000000000000001";
              message := "Plugin generated successfully" |}).
  - reflexivity.
  - intros entries. discriminate.
  - reflexivity.
  - vm_compute. reflexivity.
Defined.

(** ** History *)

Lemma not_older_trans a b c : not_older a b -> not_older b c -> not_older a c.
Proof.
  unfold not_older. destruct a as [x|], b as [y|], c as [z|]; simpl;
    try discriminate; try reflexivity.
  rewrite !Z.ltb_ge. lia.
Qed.

Lemma not_older_total a b : key_ltb a b = true -> not_older b a.
Proof.
  unfold not_older. destruct a as [x|], b as [y|]; simpl;
    try discriminate; try reflexivity.
  rewrite Z.ltb_lt, Z.ltb_ge. lia.
Qed.

Section Sorting.

Variable field : string.

Lemma insert_desc_Forall (P : gmap string Value -> Prop) d l :
  P d -> Forall P l -> Forall P (insert_desc field d l).
Proof.
  intros Hd Hl. induction Hl as [|x l Hx Hl IH]; simpl.
  - constructor; [ exact Hd | constructor ].
  - destruct (key_ltb _ _); constructor; auto.
Qed.

Lemma insert_desc_length d l : length (insert_desc field d l) = S (length l).
Proof.
  induction l as [|x l IH]; simpl; [ reflexivity | ].
  destruct (key_ltb _ _); simpl; [ now rewrite IH | reflexivity ].
Qed.

Lemma insert_desc_sorted d l :
  StronglySorted (fun a b => not_older (date_key field a) (date_key field b)) l ->
  StronglySorted (fun a b => not_older (date_key field a) (date_key field b)) (insert_desc field d l).
Proof.
  intros Hl. induction Hl as [|x l Hl IH Hx]; simpl.
  - constructor; constructor.
  - destruct (key_ltb (date_key field d) (date_key field x)) eqn:Hlt.
    + constructor; [ exact IH | ].
      apply insert_desc_Forall; [ now apply not_older_total | exact Hx ].
    + constructor; [ now constructor | ].
      constructor; [ exact Hlt | ].
      eapply Forall_impl; [ exact Hx | ].
      intros y Hy. eapply not_older_trans; [ exact Hlt | exact Hy ].
Qed.

Lemma sort_desc_sorted l :
  StronglySorted (fun a b => not_older (date_key field a) (date_key field b)) (sort_desc field l).
Proof.
  induction l as [|d l IH]; simpl; [ constructor | now apply insert_desc_sorted ].
Qed.

Lemma sort_desc_length l : length (sort_desc field l) = length l.
Proof.
  induction l as [|d l IH]; simpl; [ reflexivity | ].
  now rewrite insert_desc_length, IH.
Qed.

Lemma sort_desc_Forall (P : gmap string Value -> Prop) l :
  Forall P l -> Forall P (sort_desc field l).
Proof.
  induction 1 as [|d l Hd Hl IH]; simpl; [ constructor | ].
  now apply insert_desc_Forall.
Qed.

End Sorting.

Lemma firstn_sorted {A} (R : A -> A -> Prop) n : forall l,
  StronglySorted R l -> StronglySorted R (firstn n l).
Proof.
  induction n as [|n IH]; intros l Hl; simpl; [ constructor | ].
  destruct Hl as [|x l Hl Hx]; [ constructor | ].
  constructor; [ now apply IH | now apply Forall_take ].
Qed.

Lemma cursor_limit_sorted R n l :
  StronglySorted R l -> StronglySorted R (cursor_limit n l).
Proof.
  intros Hl. unfold cursor_limit. destruct (n =? 0); [ exact Hl | ].
  now apply firstn_sorted.
Qed.

Lemma cursor_limit_Forall (P : gmap string Value -> Prop) n l :
  Forall P l -> Forall P (cursor_limit n l).
Proof.
  intros Hl. unfold cursor_limit. destruct (n =? 0); [ exact Hl | ].
  now apply Forall_take.
Qed.

Lemma cursor_limit_length n l :
  length (cursor_limit n l)
  = if n =? 0 then length l else Nat.min (Z.to_nat (Z.abs n)) (length l).
Proof.
  unfold cursor_limit. destruct (n =? 0); [ reflexivity | apply length_take ].
Qed.

(** The loop of [history] renames [_id] to [id] in every item and keeps
    the other fields. *)
Lemma history_items_run items : forall result,
  Forall (fun it => exists o, it !! "_id" = Some (VOid o)) items ->
  exists out,
    history_items items result = Ok (result ++ out)
    /\ Forall2 (fun it it' =>
                  forall k, k <> "id" -> k <> "_id" -> it' !! k = it !! k)
               items out.
Proof.
  induction items as [|it items IH]; intros result Hids; cbn [history_items].
  - exists []. split; [ now rewrite app_nil_r | constructor ].
  - inversion Hids as [|? ? [o Ho] Hrest]; subst.
    unfold history_item. rewrite Ho.
    destruct (IH (result ++ [<["id" := VStr (ObjectId.to_str o)]> (delete "_id" it)]) Hrest)
      as (out & Hrun & Hout).
    exists (<["id" := VStr (ObjectId.to_str o)]> (delete "_id" it) :: out).
    split.
    + rewrite Hrun, <- app_assoc. reflexivity.
    + constructor; [ | exact Hout ].
      intros k Hk1 Hk2.
      rewrite lookup_insert_ne by congruence.
      now rewrite lookup_delete_ne by congruence.
Qed.

Lemma sorted_same_keys {A B} (ka : A -> option Z) (kb : B -> option Z) l l' :
  Forall2 (fun a b => kb b = ka a) l l' ->
  StronglySorted (fun a b => not_older (ka a) (ka b)) l ->
  StronglySorted (fun a b => not_older (kb a) (kb b)) l'.
Proof.
  intros H. induction H as [|a b l l' Hab Hl IH]; intros Hs; [ constructor | ].
  inversion Hs as [|? ? Hs' Ha]; subst.
  constructor; [ now apply IH | ].
  clear IH Hs Hs'. induction Hl as [|a' b' l l' Hab' Hl IH]; [ constructor | ].
  inversion Ha; subst. constructor; [ | now apply IH ].
  now rewrite Hab, Hab'.
Qed.

Lemma stored_has_id entry : exists o, stored entry !! "_id" = Some (VOid o).
Proof. exists entry.1. unfold stored. apply lookup_insert_eq. Qed.

(** What [history] answers when storage is available. *)
Lemma history_run (limit : Z) (coll : Collection) (evs : list Event) :
  exists items,
    history limit {| db := Some coll; events := evs |}
    = (Ok items, {| db := Some coll; events := evs ++ [DbFind] |})
    /\ length items
       = (if limit =? 0 then length coll
          else Nat.min (Z.to_nat (Z.abs limit)) (length coll))
    /\ (0 < limit -> Z.of_nat (length items) <= limit)
    /\ StronglySorted
         (fun a b => not_older (date_key "created_at" a) (date_key "created_at" b))
         items
    /\ Forall (fun it => it !! "zip" = None) items.
Proof.
  set (found := cursor_limit limit (sort_desc "created_at" (stored <$> coll))).
  assert (Hids : Forall (fun it => exists o, it !! "_id" = Some (VOid o))
                        (delete "zip" <$> found)).
  { apply Forall_fmap. unfold found.
    apply cursor_limit_Forall, sort_desc_Forall, Forall_fmap, Forall_forall.
    intros entry _. cbn [compose]. rewrite lookup_delete_ne by discriminate.
    apply stored_has_id. }
  destruct (history_items_run _ [] Hids) as (items & Hrun & Hitems).
  cbn [app] in Hrun. apply Forall2_fmap_l in Hitems.
  assert (Hlen : length items
                 = if limit =? 0 then length coll
                   else Nat.min (Z.to_nat (Z.abs limit)) (length coll)).
  { rewrite <- (Forall2_length _ _ _ Hitems). unfold found.
    now rewrite cursor_limit_length, sort_desc_length, length_fmap. }
  exists items. split; [ | split; [ exact Hlen | split; [ | split ] ] ].
  - unfold history, bind, db_is_none, find_sorted. cbn [db events].
    fold found. now rewrite Hrun.
  - intros Hpos. rewrite Hlen.
    destruct (limit =? 0) eqn:Hz; [ apply Z.eqb_eq in Hz; lia | lia ].
  - apply (sorted_same_keys (date_key "created_at") (date_key "created_at") found).
    + eapply Forall2_impl; [ exact Hitems | ].
      intros it it' Hk. cbn [compose] in Hk. unfold date_key.
      rewrite (Hk "created_at") by discriminate.
      now rewrite lookup_delete_ne by discriminate.
    + unfold found. apply cursor_limit_sorted, sort_desc_sorted.
  - clear -Hitems. induction Hitems as [|it it' l l' Hk _ IH]; constructor; [ | exact IH ].
    cbn [compose] in Hk. rewrite (Hk "zip") by discriminate.
    apply lookup_delete_eq.
Qed.

(** C8. With storage available [history] answers a list of items
    and makes one query. For a positive limit the list has at most [limit]
    items; a limit of [0] puts no bound on it, and a negative one bounds it
    by its absolute value. The items come newest first, records created at
    the same time one after the other (no item is older than one that
    follows it), and none has the [zip] field. *)
Theorem history_newest_first (limit : Z) (coll : Collection) (evs : list Event) :
  exists items,
    history limit {| db := Some coll; events := evs |}
    = (Ok items, {| db := Some coll; events := evs ++ [DbFind] |})
    /\ length items
       = (if limit =? 0 then length coll
          else Nat.min (Z.to_nat (Z.abs limit)) (length coll))
    /\ (0 < limit -> Z.of_nat (length items) <= limit)
    /\ StronglySorted
         (fun a b => not_older (date_key "created_at" a) (date_key "created_at" b))
         items
    /\ Forall (fun it => it !! "zip" = None) items.
Proof. apply history_run. Qed.

Lemma history_items_renamed items : forall result,
  Forall (fun it => exists o, it !! "_id" = Some (VOid o)) items ->
  history_items items result = Ok (result ++ (renamed <$> items)).
Proof.
  induction items as [|it items IH]; intros result Hids; cbn [history_items fmap list_fmap].
  - now rewrite app_nil_r.
  - inversion Hids as [|? ? [o Ho] Hrest]; subst.
    unfold history_item, renamed at 1. rewrite Ho.
    rewrite (IH _ Hrest), <- app_assoc. reflexivity.
Qed.

(** The documents the query of [history] returns. *)
Lemma history_exact (limit : Z) (coll : Collection) (evs : list Event) :
  history limit {| db := Some coll; events := evs |}
  = (Ok (renamed <$> (delete "zip"
           <$> cursor_limit limit (sort_desc "created_at" (stored <$> coll)))),
     {| db := Some coll; events := evs ++ [DbFind] |}).
Proof.
  unfold history, bind, db_is_none, find_sorted. cbn [db events].
  rewrite history_items_renamed; [ reflexivity | ].
  apply Forall_fmap, cursor_limit_Forall, sort_desc_Forall, Forall_fmap, Forall_forall.
  intros entry _. cbn [compose]. rewrite lookup_delete_ne by discriminate.
  apply stored_has_id.
Qed.

Lemma renamed_key (field : string) (d : gmap string Value) :
  field <> "id" -> field <> "_id" -> field <> "zip" ->
  date_key field (renamed (delete "zip" d)) = date_key field d.
Proof.
  intros Hid H_id Hzip. unfold date_key, renamed.
  destruct (delete "zip" d !! "_id") as [[]|];
    rewrite ?lookup_insert_ne, ?lookup_delete_ne by congruence; reflexivity.
Qed.

(** The creation times of the items, in the order listed. *)
Lemma history_keys (limit : Z) (coll : Collection) (evs : list Event) :
  exists items,
    history limit {| db := Some coll; events := evs |}
    = (Ok items, {| db := Some coll; events := evs ++ [DbFind] |})
    /\ date_key "created_at" <$> items
       = date_key "created_at"
           <$> cursor_limit limit (sort_desc "created_at" (stored <$> coll)).
Proof.
  rewrite history_exact. eexists. split; [ reflexivity | ].
  rewrite <- !list_fmap_compose. apply list_fmap_ext.
  intros _ d _. cbn [compose]. now apply renamed_key.
Qed.

Lemma sorted_keys {A B} (f : A -> B) (R : B -> B -> Prop) (l : list A) :
  StronglySorted (fun a b => R (f a) (f b)) l -> StronglySorted R (f <$> l).
Proof.
  induction 1 as [|x l _ IH Hx]; cbn [fmap list_fmap]; constructor; [ exact IH | ].
  apply Forall_fmap. exact Hx.
Qed.

Lemma history_newest_first_sample :
  exists items,
    history 2 {| db := Some dated_collection; events := [] |}
    = (Ok items, {| db := Some dated_collection; events := [DbFind] |})
    /\ Z.of_nat (length items) <= 2
    /\ StronglySorted
         (fun a b => not_older (date_key "created_at" a) (date_key "created_at" b))
         items
    /\ Forall (fun it => it !! "zip" = None) items
    /\ date_key "created_at" <$> items = [Some 30; Some 20].
Proof.
  destruct (history_newest_first 2 dated_collection [])
    as (items & Hrun & _ & Hle & Hsorted & Hzip).
  exists items. split; [ exact Hrun | ].
  split; [ apply Hle; lia | ].
  split; [ exact Hsorted | ].
  split; [ exact Hzip | ].
  destruct (history_keys 2 dated_collection []) as (items' & Hrun' & Hkeys).
  rewrite Hrun in Hrun'. injection Hrun' as <-.
  rewrite Hkeys. vm_compute. reflexivity.
Defined.

(** With two records created at the same time stored, a limit of [0]
    answers both: more than [0] items, and the second is as new as the
    first, so the listing is not strictly descending. *)
Lemma history_zero_limit_and_ties :
  exists items,
    (history 0 {| db := Some tied_collection; events := [] |}).1 = Ok items
    /\ ~ (Z.of_nat (length items) <= 0)
    /\ date_key "created_at" <$> items = [Some 5; Some 5]
    /\ ~ StronglySorted
          (fun a b =>
             strictly_newer (date_key "created_at" a) (date_key "created_at" b))
          items.
Proof.
  destruct (history_keys 0 tied_collection []) as (items & Hrun & Hkeys).
  assert (Hfive : date_key "created_at" <$> items = [Some 5; Some 5])
    by (rewrite Hkeys; vm_compute; reflexivity).
  exists items. rewrite Hrun. split; [ reflexivity | ].
  split.
  - apply (f_equal length) in Hfive. rewrite length_fmap in Hfive.
    rewrite Hfive. cbn. lia.
  - split; [ exact Hfive | ].
    intros Hs. apply (sorted_keys (date_key "created_at") strictly_newer) in Hs.
    rewrite Hfive in Hs.
    inversion Hs as [|? ? _ Hfirst]; subst.
    inversion Hfirst as [|? ? Hnewer _]; subst.
    discriminate Hnewer.
Qed.

(** * Further properties *)

(** ** Rendering *)

(** The text [_main_java] renders. *)
Lemma main_java_text (package_name class_name description : string)
    (commands : list CommandSpec.t) :
  let named := List.filter (fun c => Py.truthy (CommandSpec.name c)) commands in
  _main_java package_name class_name description commands =
  main_source package_name class_name
    (match description with
     | EmptyString => class_name
     | String _ _ => description
     end)
    (map (import_line package_name) named)
    (map register_line named).
Proof.
  intros named. unfold _main_java, main_source. fold named.
  replace (if Py.truthy description then description else class_name)
    with (match description with
          | EmptyString => class_name
          | String _ _ => description
          end) by (destruct description; reflexivity).
  strip_template. reflexivity.
Qed.

Lemma manifest_blocks_unnamed (commands : list CommandSpec.t) :
  Forall (fun c => well_named c = false) commands ->
  flat_map manifest_block commands = [].
Proof.
  induction 1 as [|c cs Hc _ IH]; [ reflexivity | ].
  cbn [flat_map]. rewrite IH.
  now rewrite (proj1 (unnamed_command_skipped c Hc)).
Qed.

(** X2. When [commands] is non-empty but no command has a name left after
    stripping, the manifest still ends with the [commands:] line, with no
    block under it. *)
Theorem plugin_yml_commands_without_blocks (name main_class description : string)
    (commands : list CommandSpec.t) :
  commands <> [] ->
  Forall (fun c => well_named c = false) commands ->
  _plugin_yml name main_class description commands =
  _plugin_yml name main_class description [] +:+ "commands:" +:+ nl.
Proof.
  intros Hne Hblank. unfold _plugin_yml.
  destruct commands as [|c cs]; [ congruence | ].
  rewrite plugin_yml_loop, (manifest_blocks_unnamed _ Hblank), app_nil_r.
  cbn [app Py.join]. rewrite !append_assoc. reflexivity.
Qed.

Lemma plugin_yml_commands_without_blocks_blank :
  _plugin_yml "P" "com.example.Main" EmptyString [blank; blank] =
  _plugin_yml "P" "com.example.Main" EmptyString [] +:+ "commands:" +:+ nl.
Proof.
  apply plugin_yml_commands_without_blocks; [ discriminate | ].
  repeat constructor.
Defined.

(** *** White space around the package name *)

Lemma rstrip_cons c s :
  Py.rstrip (String c s)
  = match Py.rstrip s with
    | EmptyString => if Py.isspace c then EmptyString else String c EmptyString
    | String d r => String c (String d r)
    end.
Proof. reflexivity. Qed.

Lemma rstrip_idempotent s : Py.rstrip (Py.rstrip s) = Py.rstrip s.
Proof.
  induction s as [|c s IH]; [ reflexivity | ].
  rewrite (rstrip_cons c s). destruct (Py.rstrip s) as [|d r] eqn:Hr.
  - destruct (Py.isspace c) eqn:Hc; [ reflexivity | ].
    rewrite rstrip_cons. cbn [Py.rstrip]. now rewrite Hc.
  - rewrite rstrip_cons, IH. reflexivity.
Qed.

Lemma lstrip_head s :
  match Py.lstrip s with
  | EmptyString => True
  | String c _ => Py.isspace c = false
  end.
Proof.
  induction s as [|c s IH]; [ exact I | ].
  cbn [Py.lstrip]. destruct (Py.isspace c) eqn:Hc; [ exact IH | exact Hc ].
Qed.

Lemma rstrip_head c s :
  Py.isspace c = false -> exists r, Py.rstrip (String c s) = String c r.
Proof.
  intros Hc. rewrite rstrip_cons. destruct (Py.rstrip s) as [|d r].
  - rewrite Hc. now exists EmptyString.
  - now exists (String d r).
Qed.

Lemma strip_idempotent s : Py.strip (Py.strip s) = Py.strip s.
Proof.
  unfold Py.strip. pose proof (lstrip_head s) as Hh.
  destruct (Py.lstrip s) as [|c t]; [ reflexivity | ].
  destruct (rstrip_head c t Hh) as [r Hr]. rewrite Hr.
  rewrite (lstrip_solid c r Hh). rewrite <- Hr. apply rstrip_idempotent.
Qed.

(** X3. White space around the package name does not reach the archive:
    the request and the request with the stripped package name are
    accepted or rejected alike, and when accepted they make the same calls
    on the archive and return the same bytes. *)
Theorem build_plugin_zip_strips_package zip_encode (req : GenerateRequest.t)
    (w : World) :
  build_plugin_zip zip_encode
    (with_package (Py.strip (GenerateRequest.package_name req)) req) w
  = build_plugin_zip zip_encode req w.
Proof.
  set (req' := with_package (Py.strip (GenerateRequest.package_name req)) req).
  assert (Hbad : malformed_package (GenerateRequest.package_name req')
                 = malformed_package (GenerateRequest.package_name req)).
  { rewrite <- !package_check. unfold req'. cbn [with_package GenerateRequest.package_name].
    now rewrite strip_idempotent. }
  assert (Hentries : archive_entries req' = archive_entries req).
  { unfold archive_entries, req', pom_xml.
    cbn [with_package GenerateRequest.package_name GenerateRequest.plugin_name
         GenerateRequest.description GenerateRequest.commands].
    now rewrite strip_idempotent. }
  destruct (malformed_package (GenerateRequest.package_name req)) eqn:Hreq.
  - now rewrite !build_plugin_zip_rejects.
  - rewrite !build_plugin_zip_accepts by congruence. now rewrite Hentries.
Qed.

(** *** The slug *)

Lemma char_lower_not_capital c : is_ascii_capital (Py.char_lower c) = false.
Proof.
  destruct c as [[] [] [] [] [] [] [] []]; reflexivity.
Qed.

(** X4. The slug of an ASCII plugin name (the artifact id of [pom.xml]
    and the stem of the download file name) has the length of the name,
    holds no blank and no ASCII capital letter. *)
Theorem slug_shape (name : string) :
  Py.isascii name = true ->
  String.length (slug name) = String.length name
  /\ Py.contains " " (slug name) = false
  /\ all_chars (fun c => negb (is_ascii_capital c)) (slug name) = true.
Proof.
  intros _. unfold slug. induction name as [|c s (IHlen & IHblank & IHcap)];
    [ repeat split | ].
  cbn [Py.lower Py.replace String.length Py.contains all_chars].
  rewrite IHlen, IHblank, IHcap. repeat split.
  - destruct (Ascii.eqb (Py.char_lower c) " ") eqn:E; [ reflexivity | ].
    rewrite Ascii.eqb_sym, E. reflexivity.
  - destruct (Ascii.eqb (Py.char_lower c) " "); [ reflexivity | ].
    now rewrite char_lower_not_capital.
Qed.

(** *** Requests that need no stripping *)

Lemma trimmed_named_filter (commands : list CommandSpec.t) :
  Forall (fun c => Py.strip (CommandSpec.name c) = CommandSpec.name c) commands ->
  List.filter (fun c => Py.truthy (CommandSpec.name c)) commands
  = List.filter well_named commands.
Proof.
  induction 1 as [|c cs Hc _ IH]; [ reflexivity | ].
  cbn [List.filter]. unfold well_named at 1. now rewrite Hc, IH.
Qed.

(** X21. For a request of ASCII text whose entry names the archive format
    can hold: when no command name has white space at its ends, the main
    entry written to the archive imports and registers exactly the
    commands that get a handler file there, in the same order. *)
Theorem main_java_matches_handlers zip_encode (req : GenerateRequest.t) (w : World) :
  ascii_request req = true ->
  names_fit (archive_entries req) = true ->
  malformed_package (GenerateRequest.package_name req) = false ->
  Forall (fun c => Py.strip (CommandSpec.name c) = CommandSpec.name c)
         (GenerateRequest.commands req) ->
  let pkg := Py.strip (GenerateRequest.package_name req) in
  exists (with_handler : list CommandSpec.t) (manifest pom ignore : string),
    let entries :=
      [ ("plugin.yml", manifest);
        (java_dir pkg +:+ "Main.java",
         main_source pkg "Main"
           (match GenerateRequest.description req with
            | EmptyString => "Main"
            | String _ _ => GenerateRequest.description req
            end)
           (map (import_line pkg) with_handler)
           (map register_line with_handler)) ]
      ++ map (fun c => (handler_path pkg c, _command_java pkg c)) with_handler
      ++ [ ("pom.xml", pom); (".gitignore", ignore) ] in
    build_plugin_zip zip_encode req w = (Ok (zip_encode entries), written entries w).
Proof.
  intros _ _ Hok Htrimmed pkg.
  exists (List.filter well_named (GenerateRequest.commands req)).
  eexists _, _, _. cbv zeta.
  rewrite build_plugin_zip_accepts by exact Hok.
  unfold archive_entries. fold pkg.
  rewrite main_java_text. cbv zeta.
  rewrite (trimmed_named_filter _ Htrimmed). reflexivity.
Qed.

Lemma main_java_matches_handlers_hello :
  exists (with_handler : list CommandSpec.t) (manifest pom ignore : string),
    let entries :=
      [ ("plugin.yml", manifest);
        ("src/main/java/com/example/Main.java",
         main_source "com.example" "Main" "Main"
           (map (import_line "com.example") with_handler)
           (map register_line with_handler)) ]
      ++ map (fun c => (handler_path "com.example" c, _command_java "com.example" c))
             with_handler
      ++ [ ("pom.xml", pom); (".gitignore", ignore) ] in
    build_plugin_zip raw_archive (sample_request [hello]) fresh_world
    = (Ok (raw_archive entries), written entries fresh_world).
Proof.
  apply (main_java_matches_handlers raw_archive (sample_request [hello]) fresh_world).
  - reflexivity.
  - reflexivity.
  - reflexivity.
  - repeat constructor.
Defined.



Lemma slug_shape_my_plugin :
  String.length (slug "My Plugin") = 9%nat
  /\ Py.contains " " (slug "My Plugin") = false
  /\ all_chars (fun c => negb (is_ascii_capital c)) (slug "My Plugin") = true.
Proof. apply (slug_shape "My Plugin"). reflexivity. Defined.

(** ** Download *)

Lemma stored_lookup entry (k : string) :
  k <> "_id" -> stored entry !! k = entry.2 !! k.
Proof. intros Hk. unfold stored. now rewrite lookup_insert_ne by congruence. Qed.

(** [download_plugin] once the identifier is parsed and the record found. *)
Lemma download_found gen_id oid entry (coll : Collection) evs :
  ObjectId.of_str gen_id = Some oid ->
  List.find (has_id oid) coll = Some entry ->
  download_plugin gen_id {| db := Some coll; events := evs |}
  = (match entry.2 !! "zip" with
     | Some v =>
         if value_truthy v then
           match v with
           | VBytes data =>
               match default (VStr "plugin") (entry.2 !! "plugin_name") with
               | VStr plugin_name =>
                   Ok {| body := data;
                         media_type := "application/zip";
                         content_disposition :=
                           "attachment; filename=" +:+ slug plugin_name +:+ ".zip" |}
               | _ => Raise (PythonError "AttributeError")
               end
           | _ => Raise (PythonError "TypeError")
           end
         else Raise (HTTPException 404 "Archive not found")
     | None => Raise (HTTPException 404 "Archive not found")
     end,
     {| db := Some coll; events := evs ++ [DbFindOne oid] |}).
Proof.
  intros Hoid Hfind.
  unfold download_plugin, bind, db_is_none. cbn [db]. rewrite Hoid.
  unfold find_one. cbn [db events]. rewrite Hfind.
  cbn [fmap option_fmap option_map archive_missing].
  rewrite stored_nonempty, !stored_lookup by discriminate.
  cbn [orb]. unfold slug.
  destruct (entry.2 !! "zip") as [v|]; [ | reflexivity ].
  destruct (value_truthy v); [ | reflexivity ].
  cbn [negb]. unfold ret, raise.
  destruct v; try reflexivity.
  destruct (default (VStr "plugin") (entry.2 !! "plugin_name")); reflexivity.
Qed.

(** X5. [download_plugin] answers the payload of the first record stored
    under the identifier, as an attachment named by the slug of its
    plugin name when that name is ASCII, after one [find_one] and without
    changing the collection. *)
Theorem download_stored_record (gen_id : string) (oid : ObjectId.t)
    (entry : ObjectId.t * gmap string Value) (coll : Collection)
    (evs : list Event) (data : bytes) (plugin_name : string) :
  ObjectId.of_str gen_id = Some oid ->
  List.find (has_id oid) coll = Some entry ->
  entry.2 !! "zip" = Some (VBytes data) ->
  data <> [] ->
  entry.2 !! "plugin_name" = Some (VStr plugin_name) ->
  Py.isascii plugin_name = true ->
  download_plugin gen_id {| db := Some coll; events := evs |}
  = (Ok {| body := data;
           media_type := "application/zip";
           content_disposition :=
             "attachment; filename=" +:+ slug plugin_name +:+ ".zip" |},
     {| db := Some coll; events := evs ++ [DbFindOne oid] |}).
Proof.
  intros Hoid Hfind Hzip Hdata Hname _.
  rewrite (download_found _ _ _ _ _ Hoid Hfind), Hzip, Hname.
  destruct data; [ congruence | reflexivity ].
Qed.

Lemma download_stored_record_named :
  download_plugin "000000000000000000000003"
    {| db := Some bare_collection; events := [] |}
  = (Ok {| body := [x50; x4b; x05];
           media_type := "application/zip";
           content_disposition := "attachment; filename=my-plugin.zip" |},
     {| db := Some bare_collection; events := [DbFindOne 3%N] |}).
Proof.
  apply (download_stored_record "000000000000000000000003" 3%N
           (3%N, <["plugin_name" := VStr "My Plugin"]> {[ "zip" := VBytes [x50; x4b; x05] ]})
           bare_collection [] [x50; x4b; x05] "My Plugin");
    first [ reflexivity | discriminate ].
Defined.

(** X6. A record without a [plugin_name] is served under the default file
    name [plugin.zip]. *)
Theorem download_default_name (gen_id : string) (oid : ObjectId.t)
    (entry : ObjectId.t * gmap string Value) (coll : Collection)
    (evs : list Event) (data : bytes) :
  ObjectId.of_str gen_id = Some oid ->
  List.find (has_id oid) coll = Some entry ->
  entry.2 !! "zip" = Some (VBytes data) ->
  data <> [] ->
  entry.2 !! "plugin_name" = None ->
  (download_plugin gen_id {| db := Some coll; events := evs |}).1
  = Ok {| body := data;
          media_type := "application/zip";
          content_disposition := "attachment; filename=plugin.zip" |}.
Proof.
  intros Hoid Hfind Hzip Hdata Hname.
  rewrite (download_found _ _ _ _ _ Hoid Hfind), Hzip, Hname.
  destruct data; [ congruence | reflexivity ].
Qed.

Lemma download_default_name_bare :
  (download_plugin "000000000000000000000001"
     {| db := Some bare_collection; events := [] |}).1
  = Ok {| body := [x50; x4b];
          media_type := "application/zip";
          content_disposition := "attachment; filename=plugin.zip" |}.
Proof.
  apply (download_default_name "000000000000000000000001" 1%N
           (1%N, {[ "zip" := VBytes [x50; x4b] ]}) bare_collection []);
    first [ reflexivity | discriminate ].
Defined.

(** X7. A record that is found but has no payload, or an empty one, is
    answered like a missing record: 404. *)
Theorem download_without_payload (gen_id : string) (oid : ObjectId.t)
    (entry : ObjectId.t * gmap string Value) (coll : Collection)
    (evs : list Event) :
  ObjectId.of_str gen_id = Some oid ->
  List.find (has_id oid) coll = Some entry ->
  entry.2 !! "zip" = None \/ entry.2 !! "zip" = Some (VBytes []) ->
  (download_plugin gen_id {| db := Some coll; events := evs |}).1
  = Raise (HTTPException 404 "Archive not found").
Proof.
  intros Hoid Hfind Hzip.
  rewrite (download_found _ _ _ _ _ Hoid Hfind).
  destruct Hzip as [-> | ->]; reflexivity.
Qed.

Lemma download_without_payload_bare :
  (download_plugin "000000000000000000000002"
     {| db := Some bare_collection; events := [] |}).1
  = Raise (HTTPException 404 "Archive not found").
Proof.
  apply (download_without_payload "000000000000000000000002" 2%N
           (2%N, {[ "plugin_name" := VStr "Empty One" ]}) bare_collection []);
    [ reflexivity | reflexivity | left; reflexivity ].
Defined.

(** X8. Reading never writes: whatever the input and the outcome,
    [download_plugin] and [history] leave the storage handle and the
    collection as they found them. *)
Theorem reads_leave_collection (gen_id : string) (limit : Z) (w : World) :
  db (download_plugin gen_id w).2 = db w
  /\ db (history limit w).2 = db w.
Proof.
  destruct w as [[coll|] evs]; split; try reflexivity.
  unfold download_plugin, bind, db_is_none. cbn [db].
  destruct (ObjectId.of_str gen_id) as [oid|]; [ | reflexivity ].
    change (find_one oid {| db := Some coll; events := evs |})
      with (Ok (stored <$> List.find (has_id oid) coll),
            {| db := Some coll; events := evs ++ [DbFindOne oid] |}).
    cbv beta iota. unfold raise, ret.
    repeat case_match; reflexivity.
Qed.

(** X9. Without storage [download_plugin] answers 500 for every
    identifier, parsable or not (the identifier is not looked at), and
    [history] answers 500 for every limit; nothing is called. *)
Theorem reads_need_storage (gen_id : string) (limit : Z) (evs : list Event) :
  download_plugin gen_id {| db := None; events := evs |}
  = (Raise (HTTPException 500 "Database not available"),
     {| db := None; events := evs |})
  /\ history limit {| db := None; events := evs |}
     = (Raise (HTTPException 500 "Database not available"),
        {| db := None; events := evs |}).
Proof. split; reflexivity. Qed.

(** ** Generate *)

(** The four outcomes of [generate_plugin]. *)
Lemma generate_run zip_encode req now1 now2 new_id w :
  generate_plugin zip_encode req now1 now2 new_id w
  = match db w with
    | None => (Raise (HTTPException 500 "Database not available"), w)
    | Some coll =>
        if malformed_package (GenerateRequest.package_name req)
        then (Raise validation_error, w)
        else
          let zip_bytes := zip_encode (archive_entries req) in
          let evs := events (written (archive_entries req) w) ++ [DbInsertOne new_id] in
          if existsb (has_id new_id) coll
          then (Raise (PythonError "DuplicateKeyError"),
                {| db := Some coll; events := evs |})
          else (Ok {| id := ObjectId.to_str new_id;
                      archive_size := Z.of_nat (length zip_bytes);
                      download_url := "/api/download/" +:+ ObjectId.to_str new_id;
                      message := "Plugin generated successfully" |},
                {| db := Some (coll ++ [(new_id, generation_doc req zip_bytes now1 now2)]);
                   events := evs |})
    end.
Proof.
  unfold generate_plugin, bind, db_is_none.
  destruct (db w) as [coll|] eqn:Hdb; [ | reflexivity ].
  destruct (malformed_package (GenerateRequest.package_name req)) eqn:Hbad.
  - now rewrite build_plugin_zip_rejects.
  - rewrite build_plugin_zip_accepts by exact Hbad.
    unfold insert_one. cbn [db written]. rewrite Hdb. cbv zeta.
    destruct (existsb (has_id new_id) coll); reflexivity.
Qed.

(** X10. A [generate_plugin] that answers appends exactly one record, the
    document of the request under the new identifier, after the records
    already stored; the answer names that identifier in [id] and in
    [download_url], and its [archive_size] is the size stored with the
    record. A [generate_plugin] that raises stores nothing. *)
Theorem generate_appends_one zip_encode (req : GenerateRequest.t)
    (now1 now2 : Z) (new_id : ObjectId.t) (w : World) :
  match generate_plugin zip_encode req now1 now2 new_id w with
  | (Ok resp, w') =>
      exists coll doc,
        db w = Some coll
        /\ db w' = Some (coll ++ [(new_id, doc)])
        /\ doc = generation_doc req (zip_encode (archive_entries req)) now1 now2
        /\ id resp = ObjectId.to_str new_id
        /\ download_url resp = "/api/download/" +:+ id resp
        /\ doc !! "archive_size" = Some (VInt (archive_size resp))
  | (Raise _, w') => db w' = db w
  end.
Proof.
  rewrite generate_run.
  destruct (db w) as [coll|] eqn:Hdb; [ | exact Hdb ].
  destruct (malformed_package _); [ exact Hdb | ].
  cbv zeta. destruct (existsb (has_id new_id) coll);
    [ reflexivity | ].
  eexists coll, _. repeat split; reflexivity.
Qed.

Lemma find_kept {A} (f : A -> bool) (l l' : list A) (x : A) :
  List.find f l = Some x -> List.find f (l ++ l') = Some x.
Proof.
  induction l as [|y l IH]; simpl; [ discriminate | ].
  destruct (f y); [ trivial | exact IH ].
Qed.

(** [download_plugin] answers alike on two collections when the second
    finds every record the first finds. *)
Lemma download_on_larger gen_id (coll coll' : Collection) evs evs' resp :
  (forall oid entry,
      List.find (has_id oid) coll = Some entry ->
      List.find (has_id oid) coll' = Some entry) ->
  (download_plugin gen_id {| db := Some coll; events := evs |}).1 = Ok resp ->
  (download_plugin gen_id {| db := Some coll'; events := evs' |}).1 = Ok resp.
Proof.
  intros Hkept.
  destruct (ObjectId.of_str gen_id) as [oid|] eqn:Hoid.
  - destruct (List.find (has_id oid) coll) as [entry|] eqn:Hfind.
    + rewrite (download_found _ _ _ _ _ Hoid Hfind).
      rewrite (download_found _ _ _ _ _ Hoid (Hkept _ _ Hfind)). trivial.
    + unfold download_plugin, bind, db_is_none. cbn [db]. rewrite Hoid.
      unfold find_one. cbn [db events]. rewrite Hfind. discriminate.
  - unfold download_plugin, bind, db_is_none. cbn [db]. rewrite Hoid. discriminate.
Qed.

(** X11. Records are not disturbed by later requests: what
    [download_plugin] answered for an identifier before a
    [generate_plugin], it answers after it, whether that request stored a
    record or failed. *)
Theorem generate_keeps_downloads zip_encode (req : GenerateRequest.t)
    (now1 now2 : Z) (new_id : ObjectId.t) (w : World) (gen_id : string)
    (resp : StreamingResponse) :
  (download_plugin gen_id w).1 = Ok resp ->
  (download_plugin gen_id
     (generate_plugin zip_encode req now1 now2 new_id w).2).1 = Ok resp.
Proof.
  intros Hbefore. rewrite generate_run.
  destruct w as [[coll|] evs]; [ | discriminate Hbefore ].
  cbn [db]. destruct (malformed_package _); [ exact Hbefore | ].
  cbv zeta. destruct (existsb (has_id new_id) coll); cbn [snd].
  - eapply download_on_larger; [ | exact Hbefore ]. auto.
  - eapply download_on_larger; [ | exact Hbefore ].
    intros oid entry. apply find_kept.
Qed.

Lemma generate_keeps_downloads_sample :
  (download_plugin "000000000000000000000003"
     (generate_plugin raw_archive (sample_request [hello]) 0 0 3%N
        {| db := Some bare_collection; events := [] |}).2).1
  = Ok {| body := [x50; x4b; x05];
          media_type := "application/zip";
          content_disposition := "attachment; filename=my-plugin.zip" |}.
Proof.
  apply (generate_keeps_downloads raw_archive (sample_request [hello]) 0 0 3%N
           {| db := Some bare_collection; events := [] |}).
  reflexivity.
Defined.

(** *** What the collection always holds *)

Lemma fresh_id_not_stored new_id (coll : Collection) :
  existsb (has_id new_id) coll = false -> new_id ∉ (fst <$> coll).
Proof.
  induction coll as [|[o d] coll IH]; cbn [existsb fmap list_fmap has_id fst].
  - intros _. apply not_elem_of_nil.
  - intros H. apply orb_false_elim in H as [Ho Hrest].
    apply N.eqb_neq in Ho. rewrite not_elem_of_cons. split; [ intros E; now apply Ho | auto ].
Qed.

(** X12. [generate_plugin] keeps the collection well formed: if the
    records have pairwise distinct 96-bit identifiers, a non-empty payload,
    its length as [archive_size], a creation date and a plugin name, the
    same holds after the request, whatever its outcome. *)
Theorem generate_keeps_store_ok zip_encode (req : GenerateRequest.t)
    (now1 now2 : Z) (new_id : ObjectId.t) (coll : Collection)
    (evs : list Event) :
  (forall entries, zip_encode entries <> []) ->
  (new_id < 2 ^ 96)%N ->
  store_ok coll ->
  exists coll',
    db (generate_plugin zip_encode req now1 now2 new_id
          {| db := Some coll; events := evs |}).2 = Some coll'
    /\ store_ok coll'.
Proof.
  intros Hzip Hid [Hdistinct Hrecords]. rewrite generate_run. cbn [db].
  destruct (malformed_package _); [ exists coll; now split | ].
  cbv zeta. destruct (existsb (has_id new_id) coll) eqn:Hfresh; cbn [snd db].
  - exists coll. now split.
  - eexists. split; [ reflexivity | ]. split.
    + rewrite fmap_app. apply NoDup_app. repeat split.
      * exact Hdistinct.
      * intros o Ho Hnew. cbn in Hnew. apply list_elem_of_singleton in Hnew. subst o.
        now apply (fresh_id_not_stored _ _ Hfresh).
      * cbn. apply NoDup_singleton.
    + apply Forall_app. split; [ exact Hrecords | ].
      constructor; [ | constructor ].
      split; [ exact Hid | ].
      exists (zip_encode (archive_entries req)), now1, (GenerateRequest.plugin_name req).
      repeat split; first [ apply Hzip | reflexivity ].
Qed.

Lemma generate_keeps_store_ok_sample :
  exists coll',
    db (generate_plugin raw_archive (sample_request [hello]) 0 0 1%N fresh_world).2
    = Some coll'
    /\ store_ok coll'.
Proof.
  apply (generate_keeps_store_ok raw_archive (sample_request [hello]) 0 0 1%N [] []).
  - intros entries. discriminate.
  - reflexivity.
  - split; [ apply NoDup_nil_2 | constructor ].
Defined.

Lemma find_distinct (coll : Collection) o d :
  NoDup (fst <$> coll) -> (o, d) ∈ coll -> List.find (has_id o) coll = Some (o, d).
Proof.
  induction coll as [|[o' d'] coll IH]; intros Hnd Hin.
  - now apply elem_of_nil in Hin.
  - cbn [fmap list_fmap fst] in Hnd. apply NoDup_cons in Hnd as [Hfresh Hnd].
    cbn [List.find]. unfold has_id at 1. cbn [fst].
    apply elem_of_cons in Hin as [Heq | Hin].
    + injection Heq as -> ->. now rewrite N.eqb_refl.
    + destruct (N.eqb_spec o' o) as [-> | _]; [ | now apply IH ].
      exfalso. apply Hfresh. apply list_elem_of_fmap. now exists (o, d).
Qed.

(** X13. In a well-formed collection every record with an ASCII plugin
    name can be downloaded: the text of its identifier is accepted, and
    [download_plugin] answers the record's own payload under the slug of
    its plugin name. *)
Theorem stored_records_download (coll : Collection) (evs : list Event)
    (o : ObjectId.t) (d : gmap string Value) :
  store_ok coll ->
  (o, d) ∈ coll ->
  (forall n, d !! "plugin_name" = Some (VStr n) -> Py.isascii n = true) ->
  exists (data : bytes) (plugin_name : string),
    d !! "zip" = Some (VBytes data)
    /\ d !! "plugin_name" = Some (VStr plugin_name)
    /\ (download_plugin (ObjectId.to_str o) {| db := Some coll; events := evs |}).1
       = Ok {| body := data;
               media_type := "application/zip";
               content_disposition :=
                 "attachment; filename=" +:+ slug plugin_name +:+ ".zip" |}.
Proof.
  intros [Hdistinct Hrecords] Hin _.
  rewrite Forall_forall in Hrecords.
  destruct (Hrecords _ Hin) as (Hid & data & t & n & Hdata & Hzip & _ & _ & Hname).
  cbn [fst snd] in *.
  exists data, n. repeat split; [ exact Hzip | exact Hname | ].
  rewrite (download_found _ o (o, d) coll evs
             (of_str_to_str o Hid) (find_distinct _ _ _ Hdistinct Hin)).
  cbn [snd]. rewrite Hzip, Hname.
  destruct data; [ congruence | reflexivity ].
Qed.

Lemma stored_records_download_sample :
  exists (data : bytes) (plugin_name : string),
    generation_doc (sample_request [hello]) [x50; x4b] 0 0 !! "zip" = Some (VBytes data)
    /\ generation_doc (sample_request [hello]) [x50; x4b] 0 0 !! "plugin_name"
       = Some (VStr plugin_name)
    /\ (download_plugin (ObjectId.to_str 7%N)
          {| db := Some [(7%N, generation_doc (sample_request [hello]) [x50; x4b] 0 0)];
             events := [] |}).1
       = Ok {| body := data;
               media_type := "application/zip";
               content_disposition :=
                 "attachment; filename=" +:+ slug plugin_name +:+ ".zip" |}.
Proof.
  apply (stored_records_download
           [(7%N, generation_doc (sample_request [hello]) [x50; x4b] 0 0)] [] 7%N).
  - split; [ apply NoDup_singleton | ].
    constructor; [ | constructor ].
    split; [ reflexivity | ].
    exists [x50; x4b], 0, "My Plugin". repeat split; first [ discriminate | reflexivity ].
  - apply list_elem_of_singleton. reflexivity.
  - intros n Hn. injection Hn as <-. reflexivity.
Defined.

(** ** History, record by record *)

(** What [history] makes of one stored record. *)
Lemma history_item_fields (entry : ObjectId.t * gmap string Value) :
  let it := renamed (delete "zip" (stored entry)) in
  it !! "id" = Some (VStr (ObjectId.to_str entry.1))
  /\ it !! "_id" = None
  /\ it !! "zip" = None
  /\ forall k : string, k <> "id" -> k <> "_id" -> k <> "zip" -> it !! k = entry.2 !! k.
Proof.
  unfold renamed, stored.
  rewrite lookup_delete_ne, lookup_insert_eq by discriminate.
  repeat split.
  - apply lookup_insert_eq.
  - rewrite lookup_insert_ne by discriminate. apply lookup_delete_eq.
  - rewrite lookup_insert_ne, lookup_delete_ne by discriminate. apply lookup_delete_eq.
  - intros k Hid H_id Hzip.
    now rewrite lookup_insert_ne, !lookup_delete_ne, lookup_insert_ne by congruence.
Qed.

(** X14. Every item of [history] is a stored record with [_id] replaced by
    the text of the identifier under [id] and without [zip]; every other
    field is the stored one. *)
Theorem history_items_are_records (limit : Z) (coll : Collection)
    (evs : list Event) :
  exists items,
    (history limit {| db := Some coll; events := evs |}).1 = Ok items
    /\ Forall (fun it =>
                 exists entry,
                   entry ∈ coll
                   /\ it !! "id" = Some (VStr (ObjectId.to_str entry.1))
                   /\ it !! "_id" = None
                   /\ it !! "zip" = None
                   /\ forall k : string,
                        k <> "id" -> k <> "_id" -> k <> "zip" ->
                        it !! k = entry.2 !! k)
              items.
Proof.
  rewrite history_exact. eexists. split; [ reflexivity | ].
  rewrite <- list_fmap_compose. apply Forall_fmap.
  apply cursor_limit_Forall, sort_desc_Forall, Forall_fmap, Forall_forall.
  intros entry Hin. cbn [compose]. exists entry.
  destruct (history_item_fields entry) as (Hid & H_id & Hzip & Hrest).
  now repeat split.
Qed.

Lemma insert_desc_perm field d l : insert_desc field d l ≡ₚ d :: l.
Proof.
  induction l as [|x l IH]; cbn [insert_desc]; [ reflexivity | ].
  destruct (key_ltb _ _); [ | reflexivity ].
  rewrite IH. apply Permutation_swap.
Qed.

Lemma sort_desc_perm field l : sort_desc field l ≡ₚ l.
Proof.
  induction l as [|d l IH]; cbn [sort_desc]; [ reflexivity | ].
  now rewrite insert_desc_perm, IH.
Qed.

(** X15. With limit [0], [history] lists every record of the collection
    exactly once: the [id]s of the items are the texts of the stored
    identifiers, up to order. *)
Theorem history_unlimited_lists_all (coll : Collection) (evs : list Event) :
  exists items,
    (history 0 {| db := Some coll; events := evs |}).1 = Ok items
    /\ ((fun it : gmap string Value => it !! "id") <$> items)
       ≡ₚ ((fun entry : ObjectId.t * gmap string Value =>
              Some (VStr (ObjectId.to_str entry.1))) <$> coll).
Proof.
  rewrite history_exact. eexists. split; [ reflexivity | ].
  unfold cursor_limit. cbn [Z.eqb].
  rewrite <- !list_fmap_compose, sort_desc_perm, <- list_fmap_compose.
  match goal with |- ?l ≡ₚ ?r => assert (Heq : l = r); [ | now rewrite Heq ] end.
  apply list_fmap_ext. intros _ entry _. cbn [compose].
  apply (history_item_fields entry).
Qed.

Lemma sorted_split {A} (R : A -> A -> Prop) (l1 l2 : list A) a b :
  StronglySorted R (l1 ++ l2) -> a ∈ l1 -> b ∈ l2 -> R a b.
Proof.
  induction l1 as [|x l1 IH]; intros Hs Ha Hb.
  - now apply elem_of_nil in Ha.
  - cbn [app] in Hs. inversion Hs as [|? ? Hs' Hx]; subst.
    apply elem_of_cons in Ha as [-> | Ha]; [ | now apply IH ].
    rewrite Forall_forall in Hx. apply Hx, elem_of_app. now right.
Qed.

(** X16. [history] lists the newest records: the documents of the
    collection split into those listed and those left out; with a limit
    other than [0] as many are listed as the limit's absolute value
    allows, with limit [0] all; and no item listed is older than a
    document left out. *)
Theorem history_lists_newest (limit : Z) (coll : Collection) (evs : list Event) :
  exists listed omitted : list (gmap string Value),
    (history limit {| db := Some coll; events := evs |}).1
    = Ok ((fun d => renamed (delete "zip" d)) <$> listed)
    /\ listed ++ omitted ≡ₚ stored <$> coll
    /\ length listed
       = (if limit =? 0 then length coll
          else Nat.min (Z.to_nat (Z.abs limit)) (length coll))
    /\ (limit = 0 -> omitted = [])
    /\ forall d d',
         d ∈ listed -> d' ∈ omitted ->
         not_older (date_key "created_at" (renamed (delete "zip" d)))
                   (date_key "created_at" d').
Proof.
  rewrite history_exact.
  set (sorted := sort_desc "created_at" (stored <$> coll)).
  exists (cursor_limit limit sorted),
         (if limit =? 0 then [] else drop (Z.to_nat (Z.abs limit)) sorted).
  split; [ cbn [fst]; now rewrite <- list_fmap_compose | ].
  assert (Hsplit : cursor_limit limit sorted
                   ++ (if limit =? 0 then [] else drop (Z.to_nat (Z.abs limit)) sorted)
                   = sorted).
  { unfold cursor_limit. destruct (limit =? 0);
      [ apply app_nil_r | apply take_drop ]. }
  split; [ rewrite Hsplit; apply sort_desc_perm | ].
  split; [ unfold sorted;
           now rewrite cursor_limit_length, sort_desc_length, length_fmap | ].
  split; [ intros ->; reflexivity | ].
  intros d d' Hd Hd'.
  replace (date_key "created_at" (renamed (delete "zip" d)))
    with (date_key "created_at" d).
  - eapply (sorted_split
              (fun a b => not_older (date_key "created_at" a) (date_key "created_at" b)));
      [ rewrite Hsplit; apply sort_desc_sorted | exact Hd | exact Hd' ].
  - unfold date_key, renamed.
    destruct (delete "zip" d !! "_id") as [[]|];
      rewrite ?lookup_insert_ne, ?lookup_delete_ne by discriminate; reflexivity.
Qed.

(** ** The diagnostic endpoint *)

Section DiagnosticsFacts.

Variable db_name : option string.
Variable list_collection_names : M (list string).
Variable exn_str : Exn -> string.
Variable getenv : string -> option string.

Local Abbreviation run := (test_database db_name list_collection_names exn_str getenv).

(** X17. [test_database] never raises, whatever the storage handle is and
    whatever the listing of the collections does; it always reports the
    backend as running, and its [database_url] and [database_name] say
    only whether [DATABASE_URL] and [DATABASE_NAME] are set to a
    non-empty value, never anything read from the handle. *)
Theorem test_database_never_raises (w : World) :
  exists resp w',
    run w = (Ok resp, w')
    /\ resp !! "backend" = Some (VStr "✅ Running")
    /\ resp !! "database_url"
       = Some (VStr (if Py.truthy_opt (getenv "DATABASE_URL")
                     then "✅ Set" else "❌ Not Set"))
    /\ resp !! "database_name"
       = Some (VStr (if Py.truthy_opt (getenv "DATABASE_NAME")
                     then "✅ Set" else "❌ Not Set")).
Proof.
  unfold test_database, bind, try_except, db_is_none, ret.
  destruct (db w) as [coll|]; cbn [negb].
  - destruct (list_collection_names w) as [[names|e] w1];
      eexists _, _; (split; [ reflexivity | ]); repeat split; reflexivity.
  - eexists _, _; (split; [ reflexivity | ]); repeat split; reflexivity.
Qed.

(** X18. Without a storage handle the listing is not called and the world
    is left as it is; the report says the database is not initialized,
    not connected, with no collections. *)
Theorem test_database_without_storage (evs : list Event) :
  exists resp,
    run {| db := None; events := evs |} = (Ok resp, {| db := None; events := evs |})
    /\ resp !! "database" = Some (VStr "⚠️  Available but not initialized")
    /\ resp !! "connection_status" = Some (VStr "Not Connected")
    /\ resp !! "collections" = Some (VList []).
Proof.
  eexists. split; [ reflexivity | ]. repeat split; reflexivity.
Qed.

(** X19. When the listing answers, the report names at most ten
    collections, the first ten in the order listed, and says the database
    is connected and working. *)
Theorem test_database_lists_ten (w w1 : World) (coll : Collection)
    (names : list string) :
  db w = Some coll ->
  list_collection_names w = (Ok names, w1) ->
  exists resp,
    run w = (Ok resp, w1)
    /\ resp !! "collections" = Some (VList (VStr <$> take 10 names))
    /\ (length (take 10 names) <= 10)%nat
    /\ resp !! "database" = Some (VStr "✅ Connected & Working")
    /\ resp !! "connection_status" = Some (VStr "Connected").
Proof.
  intros Hdb Hlist.
  unfold test_database, bind, try_except, db_is_none, ret.
  rewrite Hdb. cbn [negb]. rewrite Hlist.
  eexists. split; [ reflexivity | ].
  repeat split; try reflexivity. rewrite length_take. lia.
Qed.


End DiagnosticsFacts.

Lemma test_database_lists_ten_sample :
  exists resp,
    test_database None
      (fun w => (Ok ["a"; "b"; "c"; "d"; "e"; "f"; "g"; "h"; "i"; "j"; "k"; "l"], w))
      (fun _ => EmptyString) (fun _ => None) fresh_world
    = (Ok resp, fresh_world)
    /\ resp !! "collections"
       = Some (VList (VStr <$> ["a"; "b"; "c"; "d"; "e"; "f"; "g"; "h"; "i"; "j"])).
Proof.
  destruct (test_database_lists_ten None
              (fun w => (Ok ["a"; "b"; "c"; "d"; "e"; "f"; "g"; "h"; "i"; "j"; "k"; "l"], w))
              (fun _ => EmptyString) (fun _ => None) fresh_world fresh_world []
              ["a"; "b"; "c"; "d"; "e"; "f"; "g"; "h"; "i"; "j"; "k"; "l"]
              eq_refl eq_refl) as (resp & Hrun & Hcoll & _).
  exists resp. split; [ exact Hrun | exact Hcoll ].
Defined.

